(** * The workflow launcher of [src/tool_name/util.py]

    A shallow embedding of the launcher's decision logic: the recursive
    configuration update ([update_config]), the cluster detection
    ([scontrol_show], [get_hpc]), the registry [hpc_options] and the
    assembly and dispatch of the engine command ([run_snakemake]).

    Python values are modelled as follows.
    - A [str] is a [string]; each character stands for one code point below
      256. Integers are [Z].
    - A [dict] used as a finite map is a [gmap]; the iteration order of a
      dict is not part of the model.
    - The outside world (files, subprocesses, the error stream) is an explicit
      state threaded through a state-and-exception monad [M]. *)

From Stdlib Require Import ZArith Ascii String.
From stdpp Require Import gmap strings list fin_maps pretty.

Local Open Scope Z_scope.

(** ** Python string primitives *)

Module Py.

(** The line feed, written ["\n"] in the source. *)
Definition LF : ascii := ascii_of_nat 10.
Definition LF_str : string := String LF EmptyString.

(** [str.isspace] on one code point below 256: the characters that
    [str.strip()] removes. *)
Definition isspace (c : ascii) : bool :=
  let n := N_of_ascii c in
  ((9 <=? n) && (n <=? 13) || (28 <=? n) && (n <=? 32)
   || (n =? 133) || (n =? 160))%N.

Fixpoint lstrip (s : string) : string :=
  match s with
  | EmptyString => EmptyString
  | String c s' => if isspace c then lstrip s' else s
  end.

Fixpoint rstrip (s : string) : string :=
  match s with
  | EmptyString => EmptyString
  | String c s' =>
      match rstrip s' with
      | EmptyString => if isspace c then EmptyString else String c EmptyString
      | r => String c r
      end
  end.

(** [s.strip()] *)
Definition strip (s : string) : string := rstrip (lstrip s).

(** [s.split(sep)] for a separator of one character: the fields between
    the separators, empty fields kept; the empty string gives one empty
    field. *)
Fixpoint split (sep : ascii) (s : string) : list string :=
  match s with
  | EmptyString => [EmptyString]
  | String c s' =>
      if Ascii.eqb c sep then EmptyString :: split sep s'
      else match split sep s' with
           | f :: fs => String c f :: fs
           | [] => [String c EmptyString]
           end
  end.

(** [sep.join(l)] *)
Fixpoint join (sep : string) (l : list string) : string :=
  match l with
  | [] => EmptyString
  | [x] => x
  | x :: l' => x +:+ sep +:+ join sep l'
  end.

(** [s * n] *)
Fixpoint repeat_str (s : string) (n : nat) : string :=
  match n with
  | O => EmptyString
  | S n' => s +:+ repeat_str s n'
  end.

(** [c in s] for a character [c] *)
Fixpoint mem (c : ascii) (s : string) : bool :=
  match s with
  | EmptyString => false
  | String c' s' => Ascii.eqb c' c || mem c s'
  end.

(** [s.count(c)] for a character [c] *)
Fixpoint count (c : ascii) (s : string) : nat :=
  match s with
  | EmptyString => O
  | String c' s' => ((if Ascii.eqb c' c then 1 else 0) + count c s')%nat
  end.

(** Iterating over a [str] yields its characters as strings of length 1. *)
Fixpoint chars (s : string) : list string :=
  match s with
  | EmptyString => []
  | String c s' => String c EmptyString :: chars s'
  end.

(** [s.endswith(c)] for a character [c] *)
Fixpoint endswith (c : ascii) (s : string) : bool :=
  match s with
  | EmptyString => false
  | String c' EmptyString => Ascii.eqb c' c
  | String _ s' => endswith c s'
  end.

(** [os.path.join(a, b)] on POSIX paths: an absolute [b] discards [a];
    otherwise the two are joined by exactly one slash unless [a] is empty
    or already ends in one. *)
Definition path_join (a b : string) : string :=
  match b with
  | String "/" _ => b
  | _ =>
      match a with
      | EmptyString => b
      | _ => if endswith "/" a then a +:+ b else a +:+ "/" +:+ b
      end
  end.

End Py.


(** ** Configuration values and [update_config] *)

(** What [yaml.safe_load] returns, as far as [_update] tells values apart:
    a mapping with string keys, or a value that is not a mapping. Strings
    and integers stand for every value that is not a mapping (booleans,
    floats, [None] and lists behave like them under a string key). A value
    is a tree: one mapping object reachable from two places (a YAML anchor
    with an alias, or an object that the configuration and the override
    have in common) is outside the model. *)
#[warnings="-register-all"]
Inductive value :=
| VStr (s : string)
| VInt (n : Z)
| VMap (m : gmap string value).

Definition is_mapping (v : value) : bool :=
  match v with VMap _ => true | _ => false end.

(** [d.get(key, {})]: only a mapping has [get]; [None] stands for the
    exception Python raises on anything else. *)
Definition item_get (d : value) (key : string) : option value :=
  match d with
  | VMap m => Some (default (VMap ∅) (m !! key))
  | _ => None
  end.

(** [d[key] = v]: only a mapping supports item assignment under a string
    key; [None] stands for the exception raised on anything else. *)
Definition item_set (d : value) (key : string) (v : value) : option value :=
  match d with
  | VMap m => Some (VMap (<[key := v]> m))
  | _ => None
  end.

(** The inner function [_update(d, u)]. The result is the content of [d]
    after the loop, or [None] when the loop raises. *)
Fixpoint _update (d u : value) {struct u} : option value :=
  match u with
  | VMap um =>
      map_fold
        (λ key value (acc : option _),
           d ← acc;
           match value with
           | VMap _ =>
               sub ← item_get d key;
               r ← _update sub value;
               item_set d key r
           | _ => item_set d key value
           end)
        (Some d) um
  | _ => None
  end.

(** [update_config(config, overwrite_config)] updates [config] in place and
    returns nothing; the model returns the content of [config] afterwards. *)
Definition update_config (config overwrite_config : gmap string value)
  : option (gmap string value) :=
  match _update (VMap config) (VMap overwrite_config) with
  | Some (VMap m) => Some m
  | _ => None
  end.

(** What the loop leaves at [key] for the override value [uv], when the
    mapping updated held [dm] before the loop. *)
Definition merged_item (dm : gmap string value) (key : string) (uv : value)
  : option value :=
  match uv with
  | VMap _ => _update (default (VMap ∅) (dm !! key)) uv
  | _ => Some uv
  end.

(** One turn of the loop of [_update], on the state of the loop. *)
Definition update_step (key : string) (uv : value) (acc : option value)
  : option value :=
  d ← acc;
  match uv with
  | VMap _ => sub ← item_get d key; r ← _update sub uv; item_set d key r
  | _ => item_set d key uv
  end.

(** The size of a value, for induction on nested mappings. *)
Fixpoint vsize (v : value) : nat :=
  match v with
  | VMap m => S (map_fold (λ _ v' n, vsize v' + n)%nat O m)
  | _ => 1%nat
  end.

(** [mergeable d u]: every place where [_update d u] would have to write
    into, or read an item of, [d] holds a mapping. *)
Fixpoint mergeable (d u : value) {struct u} : bool :=
  match u with
  | VMap um =>
      bool_decide (um = ∅) ||
      match d with
      | VMap dm =>
          map_fold
            (λ key value acc,
               acc &&
               match value with
               | VMap _ => mergeable (default (VMap ∅) (dm !! key)) value
               | _ => true
               end)
            true um
      | _ => false
      end
  | _ => false
  end.

(** One turn of the loop of [mergeable]. *)
Definition mergeable_step (dm : gmap string value) (key : string) (uv : value)
    (acc : bool) : bool :=
  acc && match uv with
         | VMap _ => mergeable (default (VMap ∅) (dm !! key)) uv
         | _ => true
         end.

(** A configuration, an override for it and the result of the update. *)
Definition sample_config : gmap string value :=
  {[ "samples" := VStr "samples.tsv";
     "resources" := VMap {[ "mem" := VStr "8g"; "threads" := VInt 2 ]} ]}.

Definition sample_override : gmap string value :=
  {[ "resources" := VMap {[ "threads" := VInt 16 ]};
     "containers" := VMap {[ "base" := VStr "docker://base" ]} ]}.

Definition sample_merged : gmap string value :=
  {[ "samples" := VStr "samples.tsv";
     "resources" := VMap {[ "mem" := VStr "8g"; "threads" := VInt 16 ]};
     "containers" := VMap {[ "base" := VStr "docker://base" ]} ]}.

(** ** The outside world and the monad of effects *)

(** The exceptions the launcher can raise. *)
Inductive exn :=
| ValueError (msg : string)
| NameError (name : string)
| UnboundLocalError (name : string)
| TypeError (msg : string)
| KeyError (key : option string)
| FileNotFoundError (path : string)
| FileExistsError (path : string)
| CalledProcessError (cmd : string) (returncode : Z).

Inductive result (A : Type) :=
| Ok (a : A)
| Raise (e : exn).
Arguments Ok {A} a.
Arguments Raise {A} e.

(** The world: regular files by path, the shell commands run so far (oldest
    first), what was echoed to the error stream, and, as fixed facts of the
    machine, the installation directory of the package and what each shell
    command prints (as decoded text) and returns. What a launched command
    itself does to the files is outside the model. *)
Record world := World {
  w_fs : gmap string string;
  w_procs : list string;
  w_stderr : list string;
  w_basedir : string;
  w_stdout_of : string → string;
  w_status_of : string → Z;
}.

Definition set_fs (f : gmap string string → gmap string string) (w : world) : world :=
  World (f (w_fs w)) (w_procs w) (w_stderr w) (w_basedir w)
        (w_stdout_of w) (w_status_of w).

Definition log_proc (cmd : string) (w : world) : world :=
  World (w_fs w) (w_procs w ++ [cmd]) (w_stderr w) (w_basedir w)
        (w_stdout_of w) (w_status_of w).

Definition log_stderr (s : string) (w : world) : world :=
  World (w_fs w) (w_procs w) (w_stderr w ++ [s]) (w_basedir w)
        (w_stdout_of w) (w_status_of w).

Definition M (A : Type) : Type := world → result A * world.

#[export] Instance M_ret : MRet M := λ A a w, (Ok a, w).

#[export] Instance M_bind : MBind M := λ A B f m w,
  match m w with
  | (Ok a, w') => f a w'
  | (Raise e, w') => (Raise e, w')
  end.

Definition raise {A} (e : exn) : M A := λ w, (Raise e, w).

Definition is_raise {A} (r : result A) : bool :=
  match r with Raise _ => true | Ok _ => false end.

(** ** Operating-system primitives *)

(** [subprocess.run(cmd, shell=True, capture_output=True, text=True).stdout]:
    the command is run, its exit status is ignored. *)
Definition subprocess_run_capture (cmd : string) : M string :=
  λ w, (Ok (w_stdout_of w cmd), log_proc cmd w).

(** [subprocess.run(cmd, shell=True, check=True)] *)
Definition subprocess_run_check (cmd : string) : M unit :=
  λ w,
    let w' := log_proc cmd w in
    if (w_status_of w cmd =? 0)%Z then (Ok (), w')
    else (Raise (CalledProcessError cmd (w_status_of w cmd)), w').

(** [open(path, "w")]: the file is created or truncated. *)
Definition open_write (path : string) : M unit :=
  λ w, (Ok (), set_fs (insert path EmptyString) w).

(** [f.write(s)] and [f.writelines(lines)] on a file opened for writing. *)
Definition file_write (path s : string) : M unit :=
  λ w, (Ok (), set_fs (alter (λ c, c +:+ s) path) w).

(** [open(path, "r")] followed by reading the whole file. *)
Definition open_read (path : string) : M string :=
  λ w,
    match w_fs w !! path with
    | Some c => (Ok c, w)
    | None => (Raise (FileNotFoundError path), w)
    end.

(** [click.echo(s, err=True)] *)
Definition echo_err (s : string) : M unit :=
  λ w, (Ok (), log_stderr s w).

(** Directories are implicit: a directory exists when a file lies under it. *)
Fixpoint strip_prefix (p s : string) : option string :=
  match p with
  | EmptyString => Some s
  | String c p' =>
      match s with
      | String c' s' => if Ascii.eqb c c' then strip_prefix p' s' else None
      | EmptyString => None
      end
  end.

Definition under (dir path : string) : option string :=
  strip_prefix (if Py.endswith "/" dir then dir else dir +:+ "/") path.

Definition os_path_isfile (path : string) : M bool :=
  λ w, (Ok (bool_decide (is_Some (w_fs w !! path))), w).

Definition os_path_isdir (path : string) : M bool :=
  λ w,
    (Ok (existsb (λ p, bool_decide (is_Some (under path p)))
           (fst <$> map_to_list (w_fs w))), w).

(** [shutil.copyfile(src, dst)]: the destination is overwritten. *)
Definition shutil_copyfile (src dst : string) : M unit :=
  c ← open_read src;
  open_write dst ;;
  file_write dst c.

(** [shutil.copytree(src, dst, dirs_exist_ok=b)]: every file under [src] is
    copied to the same place under [dst]. *)
Definition shutil_copytree (src dst : string) (dirs_exist_ok : bool) : M unit :=
  isf ← os_path_isfile dst;
  isd ← os_path_isdir dst;
  if (isf || isd) && negb dirs_exist_ok then raise (FileExistsError dst)
  else
    λ w,
      (Ok (),
       set_fs
         (λ fs,
            map_fold
              (λ p c acc,
                 match under src p with
                 | Some rest => <[Py.path_join dst rest := c]> acc
                 | None => acc
                 end)
              fs fs)
         w).

(** ** Helpers of the package *)

(** [snake_base(rel_path)]: the path of a file shipped with the package. *)
Definition snake_base (rel_path : string) : M string :=
  λ w, (Ok (Py.path_join (w_basedir w) rel_path), w).

(** [msg(err_message)]: the message goes to the error stream. The source
    puts a time stamp in front of it, which the model leaves out. *)
Definition msg (err_message : string) : M unit :=
  echo_err err_message.

(** [msg_box(splash, errmsg=None)] *)
Definition msg_box (splash : string) (errmsg : option string) : M unit :=
  msg (Py.repeat_str "-" (String.length splash + 4)) ;;
  msg ("| " +:+ splash +:+ " |") ;;
  msg (Py.repeat_str "-" (String.length splash + 4)) ;;
  match errmsg with
  | Some ((String _ _) as e) => echo_err (Py.LF_str +:+ e)
  | _ => mret ()
  end.

(** A [for] loop over a list, stopping at the first exception. *)
Fixpoint for_each {A} (l : list A) (body : A → M unit) : M unit :=
  match l with
  | [] => mret ()
  | x :: l' => body x ;; for_each l' body
  end.

(** [copy_config(config_paths, overwrite=True)] *)
Definition copy_config (config_paths : list string) (overwrite : bool) : M unit :=
  msg "Copying default config files to current working directory" ;;
  for_each config_paths (λ local_config,
    system_config ← snake_base local_config;
    isf ← os_path_isfile system_config;
    if (isf : bool) then shutil_copyfile system_config local_config
    else
      isd ← os_path_isdir system_config;
      if (isd : bool) then shutil_copytree system_config local_config overwrite
      else raise (FileNotFoundError
                    ("Cannot copy " +:+ system_config +:+ " to " +:+ local_config))).

(** ** Names and calls *)

(** The names bound at the top level of [util.py]: its imports and its
    definitions. *)
Definition module_globals : list string :=
  [ "create_citation"; "validate_or_write_output"; "localtime"; "strftime";
    "click"; "collections"; "os"; "shutil"; "subprocess"; "yaml";
    "snake_base"; "get_version"; "print_citation"; "msg"; "msg_box";
    "copy_config"; "read_config"; "update_config"; "write_config";
    "OrderedCommands"; "scontrol_show"; "get_hpc"; "hpc_options";
    "run_snakemake" ].

(** Reading a name that is not a local variable of the function: it has to
    be bound in the module (no built-in is called [log]). *)
Definition load_global (name : string) : M unit :=
  if bool_decide (name ∈ module_globals) then mret ()
  else raise (NameError name).

(** Binding the keyword arguments of a call to the parameters of the
    function called: a keyword that names no parameter is refused. *)
Definition bind_keywords (fname : string) (params keywords : list string) : M unit :=
  match filter (λ k, k ∉ params) keywords with
  | [] => mret ()
  | k :: _ =>
      raise (TypeError (fname +:+ "() got an unexpected keyword argument '"
                        +:+ k +:+ "'"))
  end.

(** ** Cluster detection *)

(** One turn of the loop of [scontrol_show] over the lines of the output. *)
Definition scontrol_line (scontrol_dict : gmap string string) (line : string)
  : gmap string string :=
  let line_split := Py.split "=" line in
  if decide (1 < length line_split)%nat then
    <[Py.strip (nth 0 line_split EmptyString) :=
        Py.strip (nth 1 line_split EmptyString)]> scontrol_dict
  else scontrol_dict.

(** The key under which a line is stored, if the line is stored at all. *)
Definition line_key (line : string) : option string :=
  let line_split := Py.split "=" line in
  if decide (1 < length line_split)%nat
  then Some (Py.strip (nth 0 line_split EmptyString))
  else None.

(** The parsing part of [scontrol_show], on the captured output. *)
Definition scontrol_parse (scontrol_out : string) : gmap string string :=
  if decide (0 < String.length scontrol_out)%nat then
    foldl scontrol_line ∅ (Py.split Py.LF scontrol_out)
  else ∅.

Definition scontrol_show : M (gmap string string) :=
  scontrol_out ← subprocess_run_capture "scontrol show config";
  mret (scontrol_parse scontrol_out).

Definition get_hpc : M (option string) :=
  scontrol_out ← scontrol_show;
  mret (scontrol_out !! "ClusterName").

(** ** The registry of known clusters *)

Record hpc_entry := HpcEntry { hpc_profile : string; hpc_slurm : string }.

Definition hpc_options : gmap string hpc_entry :=
  {[ "biowulf" := HpcEntry "biowulf" "assets/slurm_header_biowulf.sh";
     "fnlcr" := HpcEntry "frce" "assets/slurm_header_frce.sh" ]}.

(** ** The launcher: [run_snakemake] *)

(** The named parameters of [run_snakemake], with the types its docstring
    gives them; [None] is the default of the optional ones. The extra
    keyword arguments ([**kwargs]) are never read. *)
Record args := Args {
  snakefile_path : option string;
  mode : string;
  configfile : option string;
  cluster_config : option string;
  threads : Z;
  snake_default : option (list string);
  snake_args : list string;
  profile : option string;
  workflow_profile : option string;
  system_workflow_profile : option string;
}.

(** The elements of the list [snake_command]: strings, the integer
    [threads] and possibly [None] for the path. *)
Inductive token :=
| TNone
| TStr (s : string)
| TInt (n : Z).

#[export] Instance token_eq_dec : EqDecision token.
Proof. solve_decision. Defined.

(** [str(s)] on such an element. *)
Definition str (t : token) : string :=
  match t with
  | TNone => "None"
  | TStr s => s
  | TInt n => pretty n
  end.

Definition path_token (p : option string) : token :=
  match p with Some s => TStr s | None => TNone end.

(** The truth value of an optional string: [None] and the empty string are
    false. *)
Definition truthy (s : option string) : bool :=
  match s with Some (String _ _) => true | _ => false end.

(** The double quote character, as a string. *)
Definition DQ : string := String (ascii_of_nat 34) EmptyString.

(** The first part of the body: the command is assembled as a list of
    tokens. The result is the detected cluster and the list as it stands
    after the [--workflow-profile] step. *)
Definition assemble_command (a : args) : M (option string * list token) :=
  let snake_command := [TStr "snakemake"; TStr "-s"; path_token (snakefile_path a)] in
  hpc ← get_hpc;
  if String.eqb (mode a) "slurm" && negb (truthy hpc) then
    raise (ValueError "mode is 'slurm' but no HPC environment was detected")
  else
    (* add threads *)
    let snake_command :=
      if bool_decide ("--profile" ∉ snake_args a) && bool_decide (profile a = None)
      then snake_command ++ [TStr "--cores"; TInt (threads a)]
      else snake_command in
    (* add snakemake default args *)
    let snake_command :=
      match snake_default a with
      | Some ((_ :: _) as l) => snake_command ++ (TStr <$> l)
      | _ => snake_command
      end in
    (* add any additional snakemake commands *)
    let snake_command :=
      match snake_args a with
      | (_ :: _) as l => snake_command ++ (TStr <$> l)
      | [] => snake_command
      end in
    (* allow double-handling of --profile *)
    let snake_command :=
      match profile a with
      | Some ((String _ _) as p) => snake_command ++ [TStr "--profile"; TStr p]
      | _ => snake_command
      end in
    (* allow double-handling of --workflow-profile *)
    snake_command ←
      match workflow_profile a with
      | Some ((String _ _) as wp) =>
          (* copy system default if not present *)
          let local_config := Py.path_join wp "config.yaml" in
          load_global "log" ;;
          bind_keywords "copy_config" ["config_paths"; "overwrite"]
                        ["system_config"; "log"] ;;
          copy_config (Py.chars local_config) true ;;
          mret (snake_command ++ [TStr "--workflow-profile"; TStr wp])
      | _ => mret snake_command
      end;
    mret (hpc, snake_command).

(** The choice of the command to run, by mode: the [if]/[elif]/[else] that
    follows the announcement of the command. [snakemake_command] is a local
    variable assigned in one branch only; reading it unassigned raises. *)
Definition select_run_command (a : args) (hpc : option string)
    (snake_command : string) : M string :=
  if String.eqb (mode a) "slurm" then
    let slurm_filename := "submit_slurm.sh" in
    open_write slurm_filename ;;
    entry ← match hpc ≫= (hpc_options !!.) with
            | Some e => mret e
            | None => raise (KeyError hpc)
            end;
    template_path ← snake_base (hpc_slurm entry);
    template ← open_read template_path;
    file_write slurm_filename template ;;
    file_write slurm_filename snake_command ;;
    let run_command := "sbatch " +:+ slurm_filename in
    msg_box "Slurm batch job" (Some run_command) ;;
    mret run_command
  else if String.eqb (mode a) "local" then
    let snakemake_command :=
      if truthy hpc then
        Some ("bash -c " +:+ DQ +:+ "module load snakemake && "
              +:+ snake_command +:+ DQ)
      else None in
    match snakemake_command with
    | Some run_command => mret run_command
    | None => raise (UnboundLocalError "snakemake_command")
    end
  else raise (ValueError ("mode " +:+ mode a +:+ " not recognized")).

(** [run_snakemake]: assemble, serialize and announce the command, choose
    the command to run and run it. The announcement passes [log=log] to
    [msg_box]. *)
Definition run_snakemake (a : args) : M unit :=
  '(hpc, snake_command) ← assemble_command a;
  (* Run Snakemake!!! *)
  let snake_command := Py.join " " (str <$> snake_command) in
  load_global "log" ;;
  bind_keywords "msg_box" ["splash"; "errmsg"] ["errmsg"; "log"] ;;
  msg_box "Snakemake command" (Some snake_command) ;;
  run_command ← select_run_command a hpc snake_command;
  (* Run snakemake!!! *)
  subprocess_run_check run_command.

(** ** What the launcher is expected to do, for comparison *)

(** The cluster name that [get_hpc] finds in a world. *)
Definition detected (w : world) : option string :=
  scontrol_parse (w_stdout_of w "scontrol show config") !! "ClusterName".

(** The world after the detection query. *)
Definition queried (w : world) : world := log_proc "scontrol show config" w.

(** The blocks of the command, in the order of the specification. *)
Definition executable_block (a : args) : list token :=
  [TStr "snakemake"; TStr "-s"; path_token (snakefile_path a)].

Definition cores_block (a : args) : list token :=
  if bool_decide (("--profile" ∉ snake_args a) ∧ (profile a = None))
  then [TStr "--cores"; TInt (threads a)] else [].

Definition default_block (a : args) : list token :=
  TStr <$> default [] (snake_default a).

Definition user_block (a : args) : list token := TStr <$> snake_args a.

Definition profile_block (a : args) : list token :=
  match profile a with
  | Some p => if decide (p = EmptyString) then [] else [TStr "--profile"; TStr p]
  | None => []
  end.

Definition expected_command (a : args) : list token :=
  executable_block a ++ cores_block a ++ default_block a ++ user_block a
  ++ profile_block a.

(** ** Sample invocations and machines *)

(** A machine without a resource manager: the query prints nothing. *)
Definition laptop : world :=
  World ∅ [] [] "/opt/tool_name" (λ _, EmptyString) (λ _, 0).

(** A node of the registered cluster [biowulf], with the package and its
    header template installed. *)
Definition biowulf_out : string :=
  "Configuration data as of 2024-01-01T00:00:00" +:+ Py.LF_str +:+
  "ClusterName             = biowulf" +:+ Py.LF_str +:+
  "SchedulerParameters     = bf_window=2880,defer" +:+ Py.LF_str.

Definition biowulf_header : string :=
  "#!/bin/bash" +:+ Py.LF_str +:+ "#SBATCH --time=24:00:00" +:+ Py.LF_str.

Definition biowulf_node : world :=
  World {[ "/opt/tool_name/assets/slurm_header_biowulf.sh" := biowulf_header ]}
        [] [] "/opt/tool_name"
        (λ cmd, if String.eqb cmd "scontrol show config" then biowulf_out
                else EmptyString)
        (λ _, 0).

(** A node of a cluster that the registry does not know. *)
Definition helix_node : world :=
  World ∅ [] [] "/opt/tool_name"
        (λ cmd, if String.eqb cmd "scontrol show config"
                then "ClusterName = helix" else EmptyString)
        (λ _, 0).

Definition local_args : args :=
  Args (Some "workflow/Snakefile") "local" None None 2 None [] None None None.

Definition slurm_args : args :=
  Args (Some "workflow/Snakefile") "slurm" None None 2 None [] None None None.

Definition bogus_args : args :=
  Args (Some "workflow/Snakefile") "bogus" None None 2 None [] None None None.

Definition workflow_profile_args : args :=
  Args (Some "workflow/Snakefile") "local" None None 2 None [] None
       (Some "profile") (Some "/opt/tool_name/profile/config.yaml").

Definition profile_and_cores_args : args :=
  Args (Some "workflow/Snakefile") "local" None None 4 None ["--cores"; "8"]
       (Some "slurm") None None.

Definition four_threads_args : args :=
  Args (Some "workflow/Snakefile") "local" None None 4 None [] None None None.

(** A machine without a resource manager where the package ships a default
    workflow-profile configuration and the working directory has none. *)
Definition fresh_checkout : world :=
  World {[ "/opt/tool_name/profile/config.yaml" := "cores: 2" ]}
        [] [] "/opt/tool_name" (λ _, EmptyString) (λ _, 0).

(** ** Further definitions, for the properties beyond the launcher *)

(** A line of the query output that states a fact. *)
Definition fact_line (kv : string * string) : string :=
  kv.1 +:+ "=" +:+ kv.2.

(** What the loop of [scontrol_show] stores for such a line. *)
Definition store_fact (d : gmap string string) (kv : string * string)
  : gmap string string :=
  <[Py.strip kv.1 := Py.strip kv.2]> d.





(** * Properties *)

(** ** The primitives on sample inputs *)

Example split_samples :
  Py.split "=" "ClusterName = biowulf" = ["ClusterName "; " biowulf"]
  ∧ Py.split "=" "A = b=c" = ["A "; " b"; "c"]
  ∧ Py.split "=" "no separator" = ["no separator"]
  ∧ Py.split "=" "" = [""]
  ∧ Py.split "=" "=" = [""; ""].
Proof. done. Qed.

Example strip_samples :
  Py.strip "  two words  " = "two words"
  ∧ Py.strip "   " = ""
  ∧ Py.strip ("value" +:+ Py.LF_str) = "value".
Proof. done. Qed.

Example path_join_samples :
  Py.path_join "/opt/tool_name" "VERSION" = "/opt/tool_name/VERSION"
  ∧ Py.path_join "/opt/tool_name/" "VERSION" = "/opt/tool_name/VERSION"
  ∧ Py.path_join "/opt/tool_name" "/etc/x" = "/etc/x"
  ∧ Py.path_join "profile" "config.yaml" = "profile/config.yaml".
Proof. done. Qed.

Example str_samples :
  str (TInt 2) = "2" ∧ str (TInt (-3)) = "-3" ∧ str TNone = "None"
  ∧ str (TStr "--cores") = "--cores".
Proof. done. Qed.

Example get_hpc_samples :
  get_hpc laptop = (Ok None, queried laptop)
  ∧ get_hpc biowulf_node = (Ok (Some "biowulf"), queried biowulf_node)
  ∧ get_hpc helix_node = (Ok (Some "helix"), queried helix_node).
Proof. repeat split; by vm_compute. Qed.

(** [copy_config] as it is defined copies over a file that exists. *)
Example copy_config_replaces_existing_file :
  (copy_config ["config.yaml"] true
     (set_fs (λ _, {[ "/opt/tool_name/config.yaml" := "default";
                      "config.yaml" := "edited" ]}) laptop)).1 = Ok ()
  ∧ w_fs (copy_config ["config.yaml"] true
            (set_fs (λ _, {[ "/opt/tool_name/config.yaml" := "default";
                             "config.yaml" := "edited" ]}) laptop)).2
    !! "config.yaml" = Some "default".
Proof. by vm_compute. Qed.

(** The two calls that pass [log=log] cannot be bound even where [log]
    is defined: neither function has such a parameter. *)
Example log_keyword_not_accepted :
  is_raise (bind_keywords "msg_box" ["splash"; "errmsg"] ["errmsg"; "log"]
              laptop).1 = true
  ∧ is_raise (bind_keywords "copy_config" ["config_paths"; "overwrite"]
                ["system_config"; "log"] laptop).1 = true.
Proof. done. Qed.

(** ** Cluster detection: [scontrol_show] *)

Section Split.

(** A field that holds no separator is cut off at the first separator. *)
Lemma split_field sep a s :
  Py.mem sep a = false →
  Py.split sep (a +:+ String sep s) = a :: Py.split sep s.
Proof.
  induction a as [|c a IH]; simpl; intros Hm.
  - by rewrite Ascii.eqb_refl.
  - apply orb_false_iff in Hm as [Hc Hm]. rewrite Hc, (IH Hm). done.
Qed.

(** A string with a separator splits at its first one. *)
Lemma first_separator c s :
  (1 ≤ Py.count c s)%nat →
  ∃ a r, s = a +:+ String c r ∧ Py.mem c a = false
         ∧ Py.count c s = S (Py.count c r).
Proof.
  induction s as [|c' s IH]; simpl; [lia|].
  destruct (Ascii.eqb c' c) eqn:E.
  - apply Ascii.eqb_eq in E as ->. intros _. by exists EmptyString, s.
  - simpl. intros H. destruct (IH H) as (a & r & -> & Hm & Hc).
    exists (String c' a), r. simpl. by rewrite E, Hm.
Qed.

End Split.

Section Detection.

Lemma scontrol_line_other d line k :
  line_key line ≠ Some k → scontrol_line d line !! k = d !! k.
Proof.
  unfold line_key, scontrol_line. simpl.
  case_decide; [|done].
  intros Hk. apply lookup_insert_ne. congruence.
Qed.

Lemma scontrol_lines_other lines d k :
  (∀ l, l ∈ lines → line_key l ≠ Some k) →
  foldl scontrol_line d lines !! k = d !! k.
Proof.
  revert d. induction lines as [|l lines IH]; simpl; intros d H; [done|].
  rewrite IH by (intros; apply H; by right).
  apply scontrol_line_other, H. by left.
Qed.

(** A line [a=b=c] is stored as [a.strip()] to [b.strip()]. *)
Lemma scontrol_line_two_separators d a b c :
  Py.mem "=" a = false → Py.mem "=" b = false →
  scontrol_line d (a +:+ "=" +:+ b +:+ "=" +:+ c)
  = <[Py.strip a := Py.strip b]> d.
Proof.
  intros Ha Hb. unfold scontrol_line. simpl.
  change (a +:+ "=" +:+ b +:+ "=" +:+ c)
    with (a +:+ String "=" (b +:+ String "=" c)).
  by rewrite (split_field _ a _ Ha), (split_field _ b _ Hb).
Qed.

Lemma two_separators line :
  (2 ≤ Py.count "=" line)%nat →
  ∃ a b c, line = a +:+ "=" +:+ b +:+ "=" +:+ c
           ∧ Py.mem "=" a = false ∧ Py.mem "=" b = false.
Proof.
  intros H.
  destruct (first_separator "=" line) as (a & r & -> & Ha & Hc); [lia|].
  destruct (first_separator "=" r) as (b & c & -> & Hb & _); [lia|].
  by exists a, b, c.
Qed.

(** C10. Every line of the query output with two or more ['='] is
    [a=b=c] with no ['='] in [a] and [b]; the loop stores for it
    [a.strip()] to [b.strip()], and unless a later line stores the same
    key the facts mapping holds [b.strip()] for it: the second ['='] and
    what follows it are dropped. There is a line whose value holds an
    ['='] and whose stored value is a strict prefix of that value. *)
Theorem scontrol_show_cuts_at_second_separator :
  (∀ out before line after,
     Py.split Py.LF out = before ++ line :: after →
     (2 ≤ Py.count "=" line)%nat →
     ∃ a b c,
       line = a +:+ "=" +:+ b +:+ "=" +:+ c
       ∧ Py.mem "=" a = false ∧ Py.mem "=" b = false
       ∧ (∀ d, scontrol_line d line = <[Py.strip a := Py.strip b]> d)
       ∧ ((∀ l, l ∈ after → line_key l ≠ Some (Py.strip a)) →
          scontrol_parse out !! Py.strip a = Some (Py.strip b)))
  ∧ (∃ key value stored,
       Py.mem "=" value = true
       ∧ scontrol_parse (key +:+ " = " +:+ value) !! key = Some stored
       ∧ String.prefix stored value = true
       ∧ stored ≠ value).
Proof.
  split.
  - intros out before line after Hsplit Hcount.
    destruct (two_separators line Hcount) as (a & b & c & -> & Ha & Hb).
    exists a, b, c. repeat split; try done.
    + intros d. by apply scontrol_line_two_separators.
    + intros Hafter. unfold scontrol_parse.
      case_decide as Hlen.
      * rewrite Hsplit, foldl_app. simpl.
        rewrite scontrol_lines_other by done.
        rewrite scontrol_line_two_separators by done.
        apply lookup_insert_eq.
      * destruct out; simpl in *; [|lia].
        destruct before as [|? [|? ?]]; simplify_eq/=.
        by destruct a.
  - exists "SchedulerParameters", "bf_window=2880,defer", "bf_window".
    by repeat split.
Qed.

Lemma scontrol_show_cuts_at_second_separator_witness :
  ∃ a b c,
    "SchedulerParameters     = bf_window=2880,defer"
    = a +:+ "=" +:+ b +:+ "=" +:+ c
    ∧ Py.mem "=" a = false ∧ Py.mem "=" b = false
    ∧ (∀ d, scontrol_line d "SchedulerParameters     = bf_window=2880,defer"
            = <[Py.strip a := Py.strip b]> d)
    ∧ ((∀ l, l ∈ [EmptyString] → line_key l ≠ Some (Py.strip a)) →
       scontrol_parse biowulf_out !! Py.strip a = Some (Py.strip b)).
Proof.
  apply (proj1 scontrol_show_cuts_at_second_separator biowulf_out
           ["Configuration data as of 2024-01-01T00:00:00";
            "ClusterName             = biowulf"]
           "SchedulerParameters     = bf_window=2880,defer"
           [EmptyString]).
  - reflexivity.
  - vm_compute. lia.
Defined.

End Detection.

(** ** Configuration update: [update_config] *)

Section Merge.

Local Arguments _update : simpl never.
Local Arguments mergeable : simpl never.

Lemma _update_unfold d um :
  _update d (VMap um) = map_fold update_step (Some d) um.
Proof. done. Qed.

Lemma update_step_mapping key uv dm :
  update_step key uv (Some (VMap dm))
  = r ← merged_item dm key uv; Some (VMap (<[key:=r]> dm)).
Proof. by destruct uv. Qed.

Lemma update_step_scalar key uv d :
  is_mapping d = false → update_step key uv (Some d) = None.
Proof. by destruct d, uv. Qed.

Lemma vsize_VMap m :
  vsize (VMap m) = S (map_fold (λ _ v' n, vsize v' + n)%nat O m).
Proof. done. Qed.

Lemma vsize_lookup m k v : m !! k = Some v → (vsize v < vsize (VMap m))%nat.
Proof.
  rewrite vsize_VMap. intros Hk. apply Nat.lt_succ_r. revert k v Hk.
  apply (map_fold_weak_ind (λ n m, ∀ k v, m !! k = Some v → (vsize v ≤ n)%nat)).
  - intros k v. by rewrite lookup_empty.
  - intros i x m' r Hi IH k v. rewrite lookup_insert. case_decide.
    + intros [= ->]. lia.
    + intros Hk. specialize (IH _ _ Hk). lia.
Qed.

(** Induction on values: a mapping has the property when its items do. *)
Lemma value_nested_ind (P : value → Prop) :
  (∀ s, P (VStr s)) →
  (∀ n, P (VInt n)) →
  (∀ m, (∀ k v, m !! k = Some v → P v) → P (VMap m)) →
  ∀ v, P v.
Proof.
  intros Hs Hi Hm.
  cut (∀ n v, (vsize v < n)%nat → P v); [by eauto|].
  induction n as [|n IH]; intros v Hn; [lia|].
  destruct v as [s|z|m]; [done..|].
  apply Hm. intros k v Hk. apply IH.
  pose proof (vsize_lookup _ _ _ Hk). lia.
Qed.

(** The loop over an empty override leaves anything as it is. *)
Lemma _update_empty d : _update d (VMap ∅) = Some d.
Proof. rewrite _update_unfold. apply map_fold_empty. Qed.

(** The loop on something that is not a mapping raises as soon as there is
    an item to store. *)
Lemma _update_scalar d um :
  is_mapping d = false → um ≠ ∅ → _update d (VMap um) = None.
Proof.
  intros Hd. rewrite _update_unfold.
  cut ((um = ∅ → map_fold update_step (Some d) um = Some d)
       ∧ (um ≠ ∅ → map_fold update_step (Some d) um = None)); [tauto|].
  apply (map_fold_weak_ind (λ (r : option value) (m : gmap string value),
           (m = ∅ → r = Some d) ∧ (m ≠ ∅ → r = None))).
  - done.
  - intros k uv m r Hk [IH0 IH1]. split.
    { intros Hins. by apply insert_non_empty in Hins. }
    intros _. destruct (decide (m = ∅)) as [Hm|Hm].
    + rewrite (IH0 Hm). by apply update_step_scalar.
    + by rewrite (IH1 Hm).
Qed.

(** The loop on a mapping, item by item: it succeeds when every item does,
    and then each key of the override holds its merged item and the other
    keys are as before. *)
Lemma _update_mapping dm um :
  match _update (VMap dm) (VMap um) with
  | Some r =>
      ∃ dm', r = VMap dm' ∧
        (∀ k uv, um !! k = Some uv → is_Some (merged_item dm k uv)) ∧
        ∀ k, dm' !! k = match um !! k with
                        | Some uv => merged_item dm k uv
                        | None => dm !! k
                        end
  | None => ∃ k uv, um !! k = Some uv ∧ merged_item dm k uv = None
  end.
Proof.
  rewrite _update_unfold.
  apply (map_fold_weak_ind
    (λ (r : option value) (m : gmap string value),
       match r with
       | Some r =>
           ∃ dm', r = VMap dm' ∧
             (∀ k uv, m !! k = Some uv → is_Some (merged_item dm k uv)) ∧
             ∀ k, dm' !! k = match m !! k with
                             | Some uv => merged_item dm k uv
                             | None => dm !! k
                             end
       | None => ∃ k uv, m !! k = Some uv ∧ merged_item dm k uv = None
       end)).
  - exists dm. split; [done|]. split; intros k; by rewrite lookup_empty.
  - intros i x m r Hi IH. destruct r as [r|]; [|simpl].
    + destruct IH as (dm' & -> & Hsome & Hdm').
      rewrite update_step_mapping.
      assert (merged_item dm' i x = merged_item dm i x) as ->.
      { unfold merged_item. by rewrite Hdm', Hi. }
      destruct (merged_item dm i x) as [y|] eqn:Hy; simpl.
      * eexists; split; [done|]. split.
        { intros k uv. rewrite lookup_insert. case_decide.
          - intros [= <-]. subst. by rewrite Hy.
          - apply Hsome. }
        intros k. rewrite !lookup_insert. case_decide; by subst.
      * exists i, x. by rewrite lookup_insert_eq.
    + destruct IH as (k & uv & Hk & Hnone). exists k, uv. split; [|done].
      rewrite lookup_insert_ne; [done|]. intros ->. congruence.
Qed.

Lemma _update_mapping_Some dm um r :
  _update (VMap dm) (VMap um) = Some r →
  ∃ dm', r = VMap dm' ∧
    (∀ k uv, um !! k = Some uv → is_Some (merged_item dm k uv)) ∧
    ∀ k, dm' !! k = match um !! k with
                    | Some uv => merged_item dm k uv
                    | None => dm !! k
                    end.
Proof. intros H. pose proof (_update_mapping dm um) as Hm. by rewrite H in Hm. Qed.

Lemma _update_mapping_None dm um :
  _update (VMap dm) (VMap um) = None →
  ∃ k uv, um !! k = Some uv ∧ merged_item dm k uv = None.
Proof. intros H. pose proof (_update_mapping dm um) as Hm. by rewrite H in Hm. Qed.

(** Updating again with the same override changes nothing. *)
Lemma _update_idempotent u :
  ∀ d r, _update d u = Some r → _update r u = Some r.
Proof.
  induction u as [s|n|um IH] using value_nested_ind; [done..|].
  intros d r Hr.
  destruct (decide (um = ∅)) as [->|Hne]; [by rewrite _update_empty|].
  destruct (is_mapping d) eqn:Hd; [|by rewrite _update_scalar in Hr].
  destruct d as [| |dm]; [done..|]. clear Hd.
  apply _update_mapping_Some in Hr as (dm' & -> & Hsome & Hdm').
  assert (Hitem : ∀ k uv, um !! k = Some uv →
            merged_item dm' k uv = dm' !! k).
  { intros k uv Hk. specialize (Hdm' k). rewrite Hk in Hdm'.
    destruct (Hsome k uv Hk) as [y Hy]. rewrite Hdm', Hy.
    unfold merged_item in *. destruct uv as [| |m]; [done..|].
    rewrite Hdm', Hy. simpl. by apply (IH k (VMap m) Hk) in Hy. }
  destruct (_update (VMap dm') (VMap um)) as [r2|] eqn:H2.
  - apply _update_mapping_Some in H2 as (dm'' & -> & _ & Hdm'').
    do 2 f_equal. apply map_eq. intros k. rewrite Hdm''.
    destruct (um !! k) as [uv|] eqn:Hk; [by apply Hitem|done].
  - apply _update_mapping_None in H2 as (k & uv & Hk & Hnone).
    rewrite (Hitem k uv Hk) in Hnone. specialize (Hdm' k).
    rewrite Hk, Hnone in Hdm'. destruct (Hsome k uv Hk). congruence.
Qed.

Lemma mergeable_unfold dm um :
  mergeable (VMap dm) (VMap um)
  = bool_decide (um = ∅) || map_fold (mergeable_step dm) true um.
Proof. done. Qed.

Lemma mergeable_scalar d um :
  is_mapping d = false → mergeable d (VMap um) = bool_decide (um = ∅).
Proof. destruct d; [| |done]; intros _; simpl; apply orb_false_r. Qed.

Lemma mergeable_mapping dm um :
  mergeable (VMap dm) (VMap um) = true ↔
  ∀ k uv, um !! k = Some uv → is_mapping uv = true →
          mergeable (default (VMap ∅) (dm !! k)) uv = true.
Proof.
  rewrite mergeable_unfold.
  assert (map_fold (mergeable_step dm) true um = true ↔
          ∀ k uv, um !! k = Some uv → is_mapping uv = true →
                  mergeable (default (VMap ∅) (dm !! k)) uv = true) as <-.
  { apply (map_fold_weak_ind (λ (b : bool) (m : gmap string value),
      b = true ↔ ∀ k uv, m !! k = Some uv → is_mapping uv = true →
                 mergeable (default (VMap ∅) (dm !! k)) uv = true)).
    - split; [|done]. intros _ k uv. by rewrite lookup_empty.
    - intros i x m b Hi IH. unfold mergeable_step.
      rewrite andb_true_iff, IH. split.
      + intros [Hm Hx] k uv. rewrite lookup_insert. case_decide.
        * intros [= <-] Hmap. subst. by destruct x.
        * apply Hm.
      + intros H. split.
        * intros k uv Hk. apply H. rewrite lookup_insert_ne; [done|].
          intros ->. congruence.
        * destruct x as [| |xm]; [done..|].
          apply (H i); [apply lookup_insert_eq|done]. }
  rewrite orb_true_iff, bool_decide_eq_true. split; [|by right].
  intros [->|H]; [|done]. by rewrite map_fold_empty.
Qed.

Lemma _update_is_Some u : ∀ d, is_Some (_update d u) ↔ mergeable d u = true.
Proof.
  induction u as [s|n|um IH] using value_nested_ind;
    [by split; [intros []|]..|].
  intros d. destruct (is_mapping d) eqn:Hd.
  - destruct d as [| |dm]; [done..|]. rewrite mergeable_mapping. split.
    + intros [r Hr] k uv Hk Hmap.
      apply _update_mapping_Some in Hr as (dm' & -> & Hsome & _).
      apply (IH k uv Hk). specialize (Hsome k uv Hk).
      by destruct uv.
    + intros H. destruct (_update (VMap dm) (VMap um)) eqn:Hr; [done|].
      apply _update_mapping_None in Hr as (k & uv & Hk & Hnone).
      destruct uv as [| |m]; [done..|]. simpl in Hnone.
      apply (H k) in Hk as Hm; [|done].
      apply (IH k _ Hk) in Hm as [? ?]. congruence.
  - rewrite mergeable_scalar, bool_decide_eq_true by done.
    destruct (decide (um = ∅)) as [->|Hne].
    + by rewrite _update_empty.
    + rewrite _update_scalar by done. split; [by intros []|done].
Qed.

Lemma update_config_Some config overwrite_config r :
  update_config config overwrite_config = Some r ↔
  _update (VMap config) (VMap overwrite_config) = Some (VMap r).
Proof.
  unfold update_config.
  destruct (_update _ _) as [r'|] eqn:Hr; [|done].
  apply _update_mapping_Some in Hr as (dm' & -> & _). naive_solver.
Qed.

Lemma update_config_is_Some config overwrite_config :
  is_Some (update_config config overwrite_config) ↔
  is_Some (_update (VMap config) (VMap overwrite_config)).
Proof.
  split.
  - intros [r Hr]. apply update_config_Some in Hr. eauto.
  - intros [r Hr]. pose proof Hr as Hr'.
    apply _update_mapping_Some in Hr' as (dm' & -> & _).
    exists dm'. by apply update_config_Some.
Qed.

(** C5, as amended. [update_config] succeeds exactly on [mergeable]
    inputs: at every key, at any depth, where the override holds a mapping
    with items, the base holds a mapping or nothing. On success an override
    value that is not a mapping replaces the base value whatever it was.
    Where the base value is not a mapping and the override value is a
    mapping with items, the update raises; with an empty mapping as the
    override value the base value stays. *)
Theorem update_config_override_wins (config overwrite_config : gmap string value) :
  (is_Some (update_config config overwrite_config)
   ↔ mergeable (VMap config) (VMap overwrite_config) = true)
  ∧ (∀ r key uv,
       update_config config overwrite_config = Some r →
       overwrite_config !! key = Some uv → is_mapping uv = false →
       r !! key = Some uv)
  ∧ (∀ key s um,
       config !! key = Some s → is_mapping s = false →
       overwrite_config !! key = Some (VMap um) → um ≠ ∅ →
       update_config config overwrite_config = None)
  ∧ (∀ r key s,
       update_config config overwrite_config = Some r →
       config !! key = Some s → is_mapping s = false →
       overwrite_config !! key = Some (VMap ∅) →
       r !! key = Some s).
Proof.
  split; [|split; [|split]].
  - rewrite update_config_is_Some. apply _update_is_Some.
  - intros r key uv Hr Hk Huv. apply update_config_Some in Hr.
    apply _update_mapping_Some in Hr as (dm' & [= <-] & _ & Hdm').
    rewrite Hdm', Hk. by destruct uv.
  - intros key s um Hs Hscalar Hk Hne.
    destruct (update_config config overwrite_config) as [r|] eqn:Hr; [|done].
    apply update_config_Some in Hr.
    apply _update_mapping_Some in Hr as (dm' & _ & Hsome & _).
    destruct (Hsome key _ Hk) as [y Hy]. simpl in Hy.
    rewrite Hs in Hy. simpl in Hy. by rewrite _update_scalar in Hy.
  - intros r key s Hr Hs Hscalar Hk. apply update_config_Some in Hr.
    apply _update_mapping_Some in Hr as (dm' & [= <-] & _ & Hdm').
    rewrite Hdm', Hk. simpl. by rewrite Hs, _update_empty.
Qed.

Lemma update_config_override_wins_witness :
  ({[ "k" := VInt 5 ]} : gmap string value) !! "k" = Some (VInt 5)
  ∧ update_config {[ "k" := VInt 1 ]} {[ "k" := VMap {[ "a" := VInt 2 ]} ]}
    = None
  ∧ ({[ "k" := VInt 1 ]} : gmap string value) !! "k" = Some (VInt 1).
Proof.
  split; [|split].
  - apply (proj1 (proj2 (update_config_override_wins
                           {[ "k" := VMap {[ "a" := VInt 1 ]} ]}
                           {[ "k" := VInt 5 ]}))
             {[ "k" := VInt 5 ]} "k" (VInt 5)); reflexivity.
  - apply (proj1 (proj2 (proj2 (update_config_override_wins
                                  {[ "k" := VInt 1 ]}
                                  {[ "k" := VMap {[ "a" := VInt 2 ]} ]})))
             "k" (VInt 1) {[ "a" := VInt 2 ]}); try reflexivity.
    vm_compute. discriminate.
  - apply (proj2 (proj2 (proj2 (update_config_override_wins
                                  {[ "k" := VInt 1 ]}
                                  {[ "k" := VMap ∅ ]})))
             {[ "k" := VInt 1 ]} "k" (VInt 1)); reflexivity.
Defined.

(** C5: a base value that is not a mapping under an override value that is
    a mapping: the update raises instead of replacing the value. *)
Lemma update_config_scalar_under_mapping_raises :
  ¬ ∃ r, update_config {[ "k" := VInt 1 ]}
           {[ "k" := VMap {[ "a" := VInt 2 ]} ]} = Some r
         ∧ r !! "k" = Some (VMap {[ "a" := VInt 2 ]}).
Proof. intros (r & Hr & _). vm_compute in Hr. discriminate. Qed.

(** C6. Updating twice with the same override gives what updating once
    gives: after an update that succeeds, a second update with the same
    override succeeds and changes nothing; when the first update raises, so
    does the sequence. *)
Theorem update_config_idempotent (config overwrite_config : gmap string value) :
  (∀ r, update_config config overwrite_config = Some r →
        update_config r overwrite_config = Some r)
  ∧ update_config config overwrite_config
      ≫= (λ r, update_config r overwrite_config)
    = update_config config overwrite_config.
Proof.
  assert (H : ∀ r, update_config config overwrite_config = Some r →
                   update_config r overwrite_config = Some r).
  { intros r Hr. apply update_config_Some. apply update_config_Some in Hr.
    by apply (_update_idempotent _ _ _ Hr). }
  split; [done|].
  destruct (update_config config overwrite_config) as [r|] eqn:Hr; [|done].
  by apply H.
Qed.

Lemma update_config_idempotent_witness :
  update_config sample_config sample_override = Some sample_merged
  ∧ update_config sample_merged sample_override = Some sample_merged.
Proof.
  assert (H : update_config sample_config sample_override = Some sample_merged)
    by reflexivity.
  split; [exact H|].
  exact (proj1 (update_config_idempotent sample_config sample_override)
           sample_merged H).
Defined.

End Merge.

(** ** The launcher: [run_snakemake] *)

Section Launcher.

Lemma get_hpc_run w : get_hpc w = (Ok (detected w), queried w).
Proof. done. Qed.

Lemma expected_command_eq a :
  expected_command a =
  let c0 := [TStr "snakemake"; TStr "-s"; path_token (snakefile_path a)] in
  let c1 := if bool_decide ("--profile" ∉ snake_args a)
               && bool_decide (profile a = None)
            then c0 ++ [TStr "--cores"; TInt (threads a)] else c0 in
  let c2 := match snake_default a with
            | Some ((_ :: _) as l) => c1 ++ (TStr <$> l)
            | _ => c1
            end in
  let c3 := match snake_args a with
            | (_ :: _) as l => c2 ++ (TStr <$> l)
            | [] => c2
            end in
  match profile a with
  | Some ((String _ _) as p) => c3 ++ [TStr "--profile"; TStr p]
  | _ => c3
  end.
Proof.
  unfold expected_command, executable_block, cores_block, default_block,
    user_block, profile_block.
  destruct a as [sp md cf cc th sd sa pr wp swp]; simpl.
  rewrite bool_decide_and.
  generalize (bool_decide ("--profile" ∉ sa) && bool_decide (pr = None)).
  intros b.
  destruct b, sd as [[|? ?]|], sa as [|? ?], pr as [[|? ?]|]; simpl;
    rewrite ?app_nil_r, <- ?app_assoc; done.
Qed.

(** The first part of [run_snakemake], case by case. *)
Lemma assemble_command_run a w :
  assemble_command a w =
  if String.eqb (mode a) "slurm" && negb (truthy (detected w)) then
    (Raise (ValueError "mode is 'slurm' but no HPC environment was detected"),
     queried w)
  else if truthy (workflow_profile a) then (Raise (NameError "log"), queried w)
  else (Ok (detected w, expected_command a), queried w).
Proof.
  rewrite expected_command_eq.
  unfold assemble_command, mbind, M_bind. rewrite get_hpc_run.
  destruct (String.eqb (mode a) "slurm" && negb (truthy (detected w)));
    [done|].
  destruct (workflow_profile a) as [[|c wp]|]; done.
Qed.

(** [run_snakemake] always raises, and the detection query is all it does
    to the world. *)
Lemma run_snakemake_run a w :
  run_snakemake a w =
  (Raise (if String.eqb (mode a) "slurm" && negb (truthy (detected w))
          then ValueError "mode is 'slurm' but no HPC environment was detected"
          else NameError "log"),
   queried w).
Proof.
  unfold run_snakemake, mbind, M_bind at 1. rewrite assemble_command_run.
  destruct (String.eqb (mode a) "slurm" && negb (truthy (detected w)));
    [done|].
  by destruct (truthy (workflow_profile a)).
Qed.

(** Without a workflow profile, and unless the mode is [slurm] without a
    cluster, the command is assembled block by block in the expected
    order. *)
Lemma assemble_command_order a w :
  truthy (workflow_profile a) = false →
  (mode a = "slurm" → truthy (detected w) = true) →
  assemble_command a w = (Ok (detected w, expected_command a), queried w).
Proof.
  intros Hwp Hmode. rewrite assemble_command_run, Hwp.
  destruct (String.eqb_spec (mode a) "slurm") as [Hm|Hm]; [|done].
  by rewrite (Hmode Hm).
Qed.

(** The choice of the command to run, branch by branch. *)
Lemma select_run_command_unrecognized a hpc cmd w :
  mode a ≠ "local" → mode a ≠ "slurm" →
  select_run_command a hpc cmd w =
  (Raise (ValueError ("mode " +:+ mode a +:+ " not recognized")), w).
Proof.
  intros Hl Hs. unfold select_run_command.
  destruct (String.eqb_spec (mode a) "slurm"); [done|].
  by destruct (String.eqb_spec (mode a) "local").
Qed.

Lemma select_run_command_local_unbound a hpc cmd w :
  mode a = "local" → truthy hpc = false →
  select_run_command a hpc cmd w =
  (Raise (UnboundLocalError "snakemake_command"), w).
Proof. intros Hm Hh. unfold select_run_command. by rewrite Hm, Hh. Qed.

Lemma select_run_command_local_wrapped a hpc cmd w :
  mode a = "local" → truthy hpc = true →
  select_run_command a hpc cmd w =
  (Ok ("bash -c " +:+ DQ +:+ "module load snakemake && " +:+ cmd +:+ DQ), w).
Proof. intros Hm Hh. unfold select_run_command. by rewrite Hm, Hh. Qed.

Lemma select_run_command_unregistered a hpc cmd w :
  mode a = "slurm" → hpc ≫= (hpc_options !!.) = None →
  select_run_command a hpc cmd w =
  (Raise (KeyError hpc), set_fs (insert "submit_slurm.sh" EmptyString) w).
Proof.
  intros Hm Hh. unfold select_run_command. rewrite Hm. simpl.
  unfold mbind at 1, M_bind at 1. simpl.
  unfold mbind at 1, M_bind at 1. by rewrite Hh.
Qed.

(** C1. The local run on a machine without a cluster: the command is
    assembled as the claim says, but [run_snakemake] raises [NameError] on
    [log] when it announces the command, having run nothing but the
    detection query; and the branch that should choose the command to run
    would raise as well, since [snakemake_command] is only assigned on a
    cluster. *)
Theorem run_snakemake_local_never_runs_command :
  assemble_command local_args laptop
  = (Ok (None, [TStr "snakemake"; TStr "-s"; TStr "workflow/Snakefile";
                TStr "--cores"; TInt 2]), queried laptop)
  ∧ Py.join " " (str <$> [TStr "snakemake"; TStr "-s";
                          TStr "workflow/Snakefile"; TStr "--cores"; TInt 2])
    = "snakemake -s workflow/Snakefile --cores 2"
  ∧ run_snakemake local_args laptop = (Raise (NameError "log"), queried laptop)
  ∧ w_procs (queried laptop) = ["scontrol show config"]
  ∧ ∀ w, select_run_command local_args None
           "snakemake -s workflow/Snakefile --cores 2" w
         = (Raise (UnboundLocalError "snakemake_command"), w).
Proof.
  split; [by vm_compute|]. split; [by vm_compute|].
  split; [by rewrite run_snakemake_run|]. split; [done|].
  intros w. by apply select_run_command_local_unbound.
Qed.

(** C2. A workflow profile is requested, its [config.yaml] is absent and
    the default of the package exists: [run_snakemake] raises [NameError]
    on [log] while it evaluates the arguments of the call of [copy_config],
    so nothing is copied and the file is still absent. *)
Theorem run_snakemake_profile_config_not_copied :
  w_fs fresh_checkout !! "/opt/tool_name/profile/config.yaml" = Some "cores: 2"
  ∧ w_fs fresh_checkout !! "profile/config.yaml" = None
  ∧ run_snakemake workflow_profile_args fresh_checkout
    = (Raise (NameError "log"), queried fresh_checkout)
  ∧ w_fs (queried fresh_checkout) !! "profile/config.yaml" = None.
Proof. by rewrite run_snakemake_run. Qed.

(** C8. With a workflow profile requested the assembly stops with
    [NameError] before [--workflow-profile] is appended: no command ends
    with that flag. *)
Theorem assemble_command_workflow_profile_raises :
  workflow_profile workflow_profile_args = Some "profile"
  ∧ assemble_command workflow_profile_args fresh_checkout
    = (Raise (NameError "log"), queried fresh_checkout).
Proof. by rewrite assemble_command_run. Qed.

(** C9. Mode [slurm] on a node of the registered cluster [biowulf] with
    its header template installed: [run_snakemake] raises [NameError] on
    [log] before the script is written, so no script exists and nothing is
    submitted. The part of the body it never reaches would write the
    header followed by the command and choose [sbatch submit_slurm.sh]. *)
Theorem run_snakemake_slurm_never_submits :
  detected biowulf_node = Some "biowulf"
  ∧ is_Some (hpc_options !! "biowulf")
  ∧ run_snakemake slurm_args biowulf_node
    = (Raise (NameError "log"), queried biowulf_node)
  ∧ w_fs (queried biowulf_node) !! "submit_slurm.sh" = None
  ∧ w_procs (queried biowulf_node) = ["scontrol show config"]
  ∧ ∀ cmd,
      (select_run_command slurm_args (Some "biowulf") cmd biowulf_node).1
      = Ok "sbatch submit_slurm.sh"
      ∧ w_fs (select_run_command slurm_args (Some "biowulf") cmd
                biowulf_node).2 !! "submit_slurm.sh"
        = Some (biowulf_header +:+ cmd).
Proof.
  assert (Hd : detected biowulf_node = Some "biowulf") by by vm_compute.
  split; [done|]. split; [by eexists|].
  split; [by rewrite run_snakemake_run, Hd|]. split; [done|]. split; [done|].
  intros cmd. split; [done|]. by vm_compute.
Qed.

(** C3, as amended. For a mode other than [local] and [slurm],
    [run_snakemake] runs the detection query first and then fails; the
    query is the only subprocess it runs, and the submission script is not
    written. The check of the mode itself is the last branch of the choice
    of the command to run, and raises without touching the world. *)
Theorem run_snakemake_unrecognized_mode (a : args) (w : world) :
  mode a ≠ "local" → mode a ≠ "slurm" →
  is_raise (run_snakemake a w).1 = true
  ∧ w_procs (run_snakemake a w).2 = w_procs w ++ ["scontrol show config"]
  ∧ w_fs (run_snakemake a w).2 !! "submit_slurm.sh"
    = w_fs w !! "submit_slurm.sh"
  ∧ ∀ hpc cmd w',
      select_run_command a hpc cmd w'
      = (Raise (ValueError ("mode " +:+ mode a +:+ " not recognized")), w').
Proof.
  intros Hl Hs. rewrite run_snakemake_run. repeat split.
  intros hpc cmd w'. by apply select_run_command_unrecognized.
Qed.

Lemma run_snakemake_unrecognized_mode_witness :
  is_raise (run_snakemake bogus_args laptop).1 = true
  ∧ w_procs (run_snakemake bogus_args laptop).2
    = w_procs laptop ++ ["scontrol show config"]
  ∧ w_fs (run_snakemake bogus_args laptop).2 !! "submit_slurm.sh"
    = w_fs laptop !! "submit_slurm.sh"
  ∧ ∀ hpc cmd w',
      select_run_command bogus_args hpc cmd w'
      = (Raise (ValueError ("mode " +:+ mode bogus_args +:+ " not recognized")),
         w').
Proof.
  apply (run_snakemake_unrecognized_mode bogus_args laptop); by vm_compute.
Defined.

(** C3: with mode [bogus] the detection query has been run when the call
    fails, so the failure does not come before every subprocess. *)
Lemma run_snakemake_bogus_mode_queries_first :
  ¬ (∃ m, (run_snakemake bogus_args laptop).1 = Raise (ValueError m)
          ∧ w_procs (run_snakemake bogus_args laptop).2 = w_procs laptop).
Proof. intros (m & _ & H). by vm_compute in H. Qed.

(** C4, as amended. In mode [slurm] without a detected cluster (no
    [ClusterName], or an empty one) [run_snakemake] raises the error for
    the missing cluster right after the detection query, which is all it
    has done. With a detected cluster that the registry does not know it
    fails as well and submits nothing, the detection query being the only
    subprocess; the registry is read only when the submission script is
    built, where the unknown name raises [KeyError] once the script file
    has been opened for writing. *)
Theorem run_snakemake_slurm_unsupported (a : args) (w : world) :
  mode a = "slurm" →
  (truthy (detected w) = false →
     run_snakemake a w
     = (Raise (ValueError "mode is 'slurm' but no HPC environment was detected"),
        queried w))
  ∧ (∀ h, detected w = Some h → hpc_options !! h = None →
       is_raise (run_snakemake a w).1 = true
       ∧ w_procs (run_snakemake a w).2 = w_procs w ++ ["scontrol show config"]
       ∧ ∀ cmd w',
           select_run_command a (Some h) cmd w'
           = (Raise (KeyError (Some h)),
              set_fs (insert "submit_slurm.sh" EmptyString) w')).
Proof.
  intros Hm. split.
  - intros Hd. by rewrite run_snakemake_run, Hm, Hd.
  - intros h Hh Hreg. rewrite run_snakemake_run. repeat split.
    intros cmd w'. by apply select_run_command_unregistered.
Qed.

Lemma run_snakemake_slurm_unsupported_witness :
  run_snakemake slurm_args laptop
  = (Raise (ValueError "mode is 'slurm' but no HPC environment was detected"),
     queried laptop)
  ∧ (is_raise (run_snakemake slurm_args helix_node).1 = true
     ∧ w_procs (run_snakemake slurm_args helix_node).2
       = w_procs helix_node ++ ["scontrol show config"]
     ∧ ∀ cmd w',
         select_run_command slurm_args (Some "helix") cmd w'
         = (Raise (KeyError (Some "helix")),
            set_fs (insert "submit_slurm.sh" EmptyString) w')).
Proof.
  split.
  - apply (run_snakemake_slurm_unsupported slurm_args laptop); reflexivity.
  - apply (run_snakemake_slurm_unsupported slurm_args helix_node);
      reflexivity.
Defined.

(** C4: on a cluster that the registry does not know, the error is not the
    one for an unsupported environment, neither from [run_snakemake] nor
    from the part of it that reads the registry. *)
Lemma run_snakemake_unregistered_cluster_other_error :
  detected helix_node = Some "helix"
  ∧ hpc_options !! "helix" = None
  ∧ (run_snakemake slurm_args helix_node).1
    ≠ Raise (ValueError "mode is 'slurm' but no HPC environment was detected")
  ∧ (select_run_command slurm_args (Some "helix")
       "snakemake -s workflow/Snakefile --cores 2" (queried helix_node)).1
    = Raise (KeyError (Some "helix")).
Proof. by vm_compute. Qed.

(** C7, as amended. Whenever the assembly completes, the command is the
    executable block, the cores block, the default arguments, the user
    arguments and the profile block, in this order. The cores block is the
    pair [--cores], [threads] exactly when no user argument is [--profile]
    and no profile is given, and is empty otherwise; in the first case the
    command contains that pair. With a profile name given the assembler
    adds no [--cores] of its own: the command holds [--cores] only where
    the path, the default arguments, the user arguments or the profile name
    are [--cores]. *)
Theorem assemble_command_cores (a : args) (w : world) :
  truthy (workflow_profile a) = false →
  (mode a = "slurm" → truthy (detected w) = true) →
  ∃ cmd,
    assemble_command a w = (Ok (detected w, cmd), queried w)
    ∧ cmd = executable_block a ++ cores_block a ++ default_block a
            ++ user_block a ++ profile_block a
    ∧ (cores_block a = [TStr "--cores"; TInt (threads a)]
       ↔ ("--profile" ∉ snake_args a) ∧ profile a = None)
    ∧ (cores_block a = []
       ↔ ¬ (("--profile" ∉ snake_args a) ∧ profile a = None))
    ∧ ("--profile" ∉ snake_args a → profile a = None →
       ∃ pre post, cmd = pre ++ [TStr "--cores"; TInt (threads a)] ++ post)
    ∧ (∀ p, profile a = Some p → p ≠ EmptyString →
         cmd = executable_block a ++ default_block a ++ user_block a
               ++ [TStr "--profile"; TStr p]
         ∧ (TStr "--cores" ∈ cmd
            ↔ snakefile_path a = Some "--cores"
              ∨ "--cores" ∈ default [] (snake_default a)
              ∨ "--cores" ∈ snake_args a
              ∨ p = "--cores")).
Proof.
  intros Hwp Hmode. exists (expected_command a).
  split; [by apply assemble_command_order|]. split; [done|].
  assert (Hc1 : cores_block a = [TStr "--cores"; TInt (threads a)]
                ↔ ("--profile" ∉ snake_args a) ∧ profile a = None).
  { unfold cores_block. case_bool_decide; intuition congruence. }
  assert (Hc0 : cores_block a = []
                ↔ ¬ (("--profile" ∉ snake_args a) ∧ profile a = None)).
  { unfold cores_block. case_bool_decide; intuition congruence. }
  split; [done|]. split; [done|]. split.
  - intros Hu Hp. exists (executable_block a),
      (default_block a ++ user_block a ++ profile_block a).
    unfold expected_command. by rewrite (proj2 Hc1).
  - intros p Hp Hne.
    assert (cores_block a = []) as Hcb.
    { apply Hc0. intros [_ ?]. congruence. }
    assert (profile_block a = [TStr "--profile"; TStr p]) as Hpb.
    { unfold profile_block. rewrite Hp. by rewrite decide_False. }
    unfold expected_command. rewrite Hcb, Hpb. split; [done|].
    unfold executable_block, default_block, user_block. simpl.
    rewrite !elem_of_cons, !elem_of_app, !elem_of_cons, !list_elem_of_fmap,
      elem_of_nil.
    clear. destruct (snakefile_path a) as [sp|]; simpl; split.
    all: try (intros [?|[?|[?|[(y & ? & ?)|[(y & ? & ?)|[?|[?|[]]]]]]]];
              simplify_eq; auto).
    all: intros [?|[?|[?|?]]]; simplify_eq; eauto 10.
Qed.

Lemma assemble_command_cores_witness :
  ∃ cmd,
    assemble_command four_threads_args laptop = (Ok (detected laptop, cmd), queried laptop)
    ∧ cmd = executable_block four_threads_args ++ cores_block four_threads_args
            ++ default_block four_threads_args
            ++ user_block four_threads_args ++ profile_block four_threads_args
    ∧ (cores_block four_threads_args = [TStr "--cores"; TInt 4]
       ↔ ("--profile" ∉ snake_args four_threads_args)
         ∧ profile four_threads_args = None)
    ∧ (cores_block four_threads_args = []
       ↔ ¬ (("--profile" ∉ snake_args four_threads_args)
            ∧ profile four_threads_args = None))
    ∧ ("--profile" ∉ snake_args four_threads_args →
       profile four_threads_args = None →
       ∃ pre post, cmd = pre ++ [TStr "--cores"; TInt 4] ++ post)
    ∧ (∀ p, profile four_threads_args = Some p → p ≠ EmptyString →
         cmd = executable_block four_threads_args
               ++ default_block four_threads_args
               ++ user_block four_threads_args
               ++ [TStr "--profile"; TStr p]
         ∧ (TStr "--cores" ∈ cmd
            ↔ snakefile_path four_threads_args = Some "--cores"
              ∨ "--cores" ∈ default [] (snake_default four_threads_args)
              ∨ "--cores" ∈ snake_args four_threads_args
              ∨ p = "--cores")).
Proof.
  apply (assemble_command_cores four_threads_args laptop).
  - reflexivity.
  - simpl. discriminate.
Defined.

(** C7: a profile name is given and the user arguments hold [--cores]: the
    command contains [--cores]. *)
Lemma assemble_command_profile_keeps_user_cores :
  profile profile_and_cores_args = Some "slurm"
  ∧ (assemble_command profile_and_cores_args laptop).1
    = Ok (None, [TStr "snakemake"; TStr "-s"; TStr "workflow/Snakefile";
                 TStr "--cores"; TStr "8"; TStr "--profile"; TStr "slurm"])
  ∧ ¬ (∀ hpc cmd,
         (assemble_command profile_and_cores_args laptop).1 = Ok (hpc, cmd) →
         TStr "--cores" ∉ cmd).
Proof.
  split; [done|]. split; [by vm_compute|].
  intros H. eapply H; [by vm_compute|]. set_solver.
Qed.

End Launcher.

(** ** More on [update_config] *)

Section MergeLaws.

Local Arguments _update : simpl never.

(** Updating an empty mapping copies the override. *)
Lemma _update_copy u :
  is_mapping u = true → _update (VMap ∅) u = Some u.
Proof.
  induction u as [s|n|um IH] using value_nested_ind; [done..|]. intros _.
  destruct (_update (VMap ∅) (VMap um)) as [r|] eqn:Hr.
  - apply _update_mapping_Some in Hr as (dm' & -> & Hsome & Hdm').
    do 2 f_equal. apply map_eq. intros k. rewrite Hdm'.
    destruct (um !! k) as [uv|] eqn:Hk; [|done].
    destruct uv as [| |m]; [done..|]. simpl. rewrite lookup_empty. simpl.
    by apply (IH k).
  - apply _update_mapping_None in Hr as (k & uv & Hk & Hnone).
    destruct uv as [| |m]; [done..|]. simpl in Hnone.
    rewrite lookup_empty in Hnone. simpl in Hnone.
    by rewrite (IH k _ Hk) in Hnone.
Qed.

(** Updating a mapping with itself changes nothing. *)
Lemma _update_self u : is_mapping u = true → _update u u = Some u.
Proof.
  induction u as [s|n|um IH] using value_nested_ind; [done..|]. intros _.
  assert (Hitem : ∀ k uv, um !! k = Some uv → merged_item um k uv = Some uv).
  { intros k uv Hk. destruct uv as [| |m]; [done..|]. simpl.
    rewrite Hk. simpl. by apply (IH k). }
  destruct (_update (VMap um) (VMap um)) as [r|] eqn:Hr.
  - apply _update_mapping_Some in Hr as (dm' & -> & Hsome & Hdm').
    do 2 f_equal. apply map_eq. intros k. rewrite Hdm'.
    destruct (um !! k) as [uv|] eqn:Hk; [by apply Hitem|done].
  - apply _update_mapping_None in Hr as (k & uv & Hk & Hnone).
    by rewrite (Hitem k uv Hk) in Hnone.
Qed.

(** X1. An override without nested mappings never fails and acts as a
    shallow update: every key of the override takes the override's value,
    every other key keeps its value. *)
Theorem update_config_flat_override (config overwrite_config : gmap string value) :
  (∀ k v, overwrite_config !! k = Some v → is_mapping v = false) →
  update_config config overwrite_config = Some (overwrite_config ∪ config).
Proof.
  intros Hflat. apply update_config_Some.
  assert (Hitem : ∀ k uv, overwrite_config !! k = Some uv →
            merged_item config k uv = Some uv).
  { intros k uv Hk. specialize (Hflat k uv Hk). by destruct uv. }
  destruct (_update (VMap config) (VMap overwrite_config)) as [r|] eqn:Hr.
  - apply _update_mapping_Some in Hr as (dm' & -> & _ & Hdm').
    do 2 f_equal. apply map_eq. intros k. rewrite Hdm', lookup_union.
    destruct (overwrite_config !! k) as [uv|] eqn:Hk.
    + rewrite (Hitem k uv Hk). by destruct (config !! k).
    + by destruct (config !! k).
  - apply _update_mapping_None in Hr as (k & uv & Hk & Hnone).
    by rewrite (Hitem k uv Hk) in Hnone.
Qed.

Lemma update_config_flat_override_witness :
  update_config sample_config {[ "samples" := VStr "other.tsv"; "dry" := VInt 1 ]}
  = Some ({[ "samples" := VStr "other.tsv"; "dry" := VInt 1 ]} ∪ sample_config).
Proof.
  apply (update_config_flat_override sample_config
           {[ "samples" := VStr "other.tsv"; "dry" := VInt 1 ]}).
  refine (bool_decide_unpack
            (map_Forall (λ _ v, is_mapping v = false) _) _).
  vm_compute. exact I.
Defined.

(** X2. A successful update leaves every key that the override does not
    have as it was, and the keys of the result are those of the
    configuration and of the override together. *)
Theorem update_config_frame (config overwrite_config r : gmap string value) :
  update_config config overwrite_config = Some r →
  (∀ k, overwrite_config !! k = None → r !! k = config !! k)
  ∧ dom r = dom config ∪ dom overwrite_config.
Proof.
  intros Hr. apply update_config_Some in Hr.
  apply _update_mapping_Some in Hr as (dm' & [= <-] & Hsome & Hdm').
  split.
  - intros k Hk. by rewrite Hdm', Hk.
  - apply set_eq. intros k.
    rewrite elem_of_union, !elem_of_dom, Hdm'.
    destruct (overwrite_config !! k) as [uv|] eqn:Hk.
    + split; [by right; eexists|]. intros _. by apply (Hsome k).
    + split; [by left|]. intros [?|[? ?]]; [done|congruence].
Qed.

Lemma update_config_frame_witness :
  (∀ k, sample_override !! k = None → sample_merged !! k = sample_config !! k)
  ∧ dom sample_merged = dom sample_config ∪ dom sample_override.
Proof.
  apply (update_config_frame sample_config sample_override sample_merged).
  reflexivity.
Defined.

(** X3. The empty mapping is neutral on both sides: updating an empty
    configuration gives the override, whatever it holds, and an empty
    override leaves the configuration as it is; neither fails. Updating a
    configuration with itself changes nothing. *)
Theorem update_config_empty_and_self (config : gmap string value) :
  update_config ∅ config = Some config
  ∧ update_config config ∅ = Some config
  ∧ update_config config config = Some config.
Proof.
  split; [|split].
  - apply update_config_Some. by apply _update_copy.
  - apply update_config_Some. apply _update_empty.
  - apply update_config_Some. by apply _update_self.
Qed.

(** X4. Where the override holds a mapping, the result holds the update of
    what the configuration had there: a copy of the override's mapping when
    the configuration had nothing, and the recursive update when it had a
    mapping. *)
Theorem update_config_nested (config overwrite_config r : gmap string value)
    (key : string) (um : gmap string value) :
  update_config config overwrite_config = Some r →
  overwrite_config !! key = Some (VMap um) →
  (config !! key = None → r !! key = Some (VMap um))
  ∧ (∀ bm, config !! key = Some (VMap bm) →
       ∃ rm, update_config bm um = Some rm ∧ r !! key = Some (VMap rm)).
Proof.
  intros Hr Hk. apply update_config_Some in Hr.
  apply _update_mapping_Some in Hr as (dm' & [= <-] & Hsome & Hdm').
  specialize (Hdm' key). rewrite Hk in Hdm'. simpl in Hdm'. split.
  - intros Hc. rewrite Hc in Hdm'. simpl in Hdm'.
    by rewrite _update_copy in Hdm'.
  - intros bm Hc. rewrite Hc in Hdm'. simpl in Hdm'.
    destruct (Hsome key _ Hk) as [y Hy]. simpl in Hy.
    rewrite Hc in Hy. simpl in Hy. pose proof Hy as Hy'.
    apply _update_mapping_Some in Hy' as (rm & -> & _).
    exists rm. split; [by apply update_config_Some|]. by rewrite Hdm', Hy.
Qed.

Lemma update_config_nested_witness :
  (sample_config !! "resources" = None →
   sample_merged !! "resources" = Some (VMap {[ "threads" := VInt 16 ]}))
  ∧ (∀ bm, sample_config !! "resources" = Some (VMap bm) →
       ∃ rm, update_config bm {[ "threads" := VInt 16 ]} = Some rm
             ∧ sample_merged !! "resources" = Some (VMap rm)).
Proof.
  apply (update_config_nested sample_config sample_override sample_merged
           "resources" {[ "threads" := VInt 16 ]}); reflexivity.
Defined.

Lemma _update_result_mapping d um r :
  um ≠ ∅ → _update d (VMap um) = Some r → is_mapping d = true.
Proof.
  intros Hne Hr. destruct (is_mapping d) eqn:Hd; [done|].
  by rewrite _update_scalar in Hr.
Qed.

Lemma _update_keeps_kind d u r :
  _update d u = Some r → is_mapping r = is_mapping d.
Proof.
  destruct u as [| |um]; [done..|]. intros Hr.
  destruct (decide (um = ∅)) as [->|Hne].
  - rewrite _update_empty in Hr. congruence.
  - pose proof (_update_result_mapping _ _ _ Hne Hr) as Hd.
    destruct d as [| |dm]; [done..|].
    by apply _update_mapping_Some in Hr as (dm' & -> & _).
Qed.

(** Two overrides applied one after the other can be merged first. *)
Lemma _update_layers u1 :
  ∀ d x u2 r,
    _update d u1 = Some x → _update x u2 = Some r →
    ∃ y, _update u1 u2 = Some y ∧ _update d y = Some r.
Proof.
  induction u1 as [s|n|m1 IH] using value_nested_ind; [done..|].
  intros d x u2 r H1 H2.
  destruct u2 as [| |m2]; [by destruct x..|].
  destruct (decide (m1 = ∅)) as [->|Hne1].
  { rewrite _update_empty in H1. injection H1 as <-.
    exists (VMap m2). by rewrite _update_copy. }
  pose proof (_update_result_mapping _ _ _ Hne1 H1) as Hd.
  destruct d as [| |dm]; [done..|]. clear Hd.
  apply _update_mapping_Some in H1 as (xm & -> & Hsome1 & Hxm).
  apply _update_mapping_Some in H2 as (rm & -> & Hsome2 & Hrm).
  (* what the merged override holds at a key where both overrides hold
     something, the second a mapping *)
  assert (Hboth : ∀ k m2', m2 !! k = Some (VMap m2') →
            ∃ yk, _update (default (VMap ∅) (m1 !! k)) (VMap m2') = Some yk
                  ∧ merged_item dm k yk = rm !! k
                  ∧ (m1 !! k = None → yk = VMap m2')).
  { intros k m2' Hk2. specialize (Hrm k). rewrite Hk2 in Hrm. simpl in Hrm.
    destruct (Hsome2 k _ Hk2) as [rk Hrk]. simpl in Hrk.
    specialize (Hxm k).
    destruct (m1 !! k) as [uv1|] eqn:Hk1; simpl.
    - destruct (Hsome1 k _ Hk1) as [xk Hxk].
      rewrite Hxk in Hxm. rewrite Hxm in Hrk, Hrm. simpl in Hrk, Hrm.
      destruct uv1 as [s1|n1|m1'].
      + injection Hxk as <-.
        destruct (decide (m2' = ∅)) as [->|Hne2];
          [|by rewrite _update_scalar in Hrk].
        rewrite _update_empty in Hrk, Hrm. exists (VStr s1).
        by rewrite _update_empty.
      + injection Hxk as <-.
        destruct (decide (m2' = ∅)) as [->|Hne2];
          [|by rewrite _update_scalar in Hrk].
        rewrite _update_empty in Hrk, Hrm. exists (VInt n1).
        by rewrite _update_empty.
      + simpl in Hxk.
        destruct (IH k _ Hk1 _ _ _ _ Hxk Hrk) as (y' & Hy' & Hdy').
        exists y'. split; [done|]. split; [|done].
        pose proof (_update_keeps_kind _ _ _ Hy') as Hkind.
        destruct y' as [| |ym']; [done..|]. simpl. by rewrite Hdy', Hrm.
    - exists (VMap m2'). rewrite _update_copy by done.
      split; [done|]. split; [|done]. simpl. by rewrite Hrm, Hxm.
  }
  destruct (_update (VMap m1) (VMap m2)) as [y|] eqn:Hy.
  2:{ apply _update_mapping_None in Hy as (k & uv2 & Hk2 & Hnone).
      destruct uv2 as [| |m2']; [done..|]. simpl in Hnone.
      destruct (Hboth k m2' Hk2) as (yk & Hyk & _). congruence. }
  apply _update_mapping_Some in Hy as (ym & -> & Hsomey & Hym).
  exists (VMap ym). split; [done|].
  assert (HK : ∀ k, match ym !! k with
                    | Some yv => merged_item dm k yv
                    | None => dm !! k
                    end = rm !! k).
  { intros k. rewrite Hym. destruct (m2 !! k) as [uv2|] eqn:Hk2.
    - destruct uv2 as [s2|n2|m2'].
      + simpl. by rewrite Hrm, Hk2.
      + simpl. by rewrite Hrm, Hk2.
      + destruct (Hboth k m2' Hk2) as (yk & Hyk & Hitem & _).
        simpl. by rewrite Hyk.
    - rewrite Hrm, Hk2, Hxm. by destruct (m1 !! k). }
  assert (HS : ∀ k yv, ym !! k = Some yv → is_Some (rm !! k)).
  { intros k yv Hk. rewrite Hrm. specialize (Hym k). rewrite Hk in Hym.
    destruct (m2 !! k) as [uv2|] eqn:Hk2; [by apply (Hsome2 k)|].
    rewrite Hxm. destruct (m1 !! k) as [uv1|] eqn:Hk1; [|done].
    by apply (Hsome1 k). }
  destruct (_update (VMap dm) (VMap ym)) as [r'|] eqn:Hr'.
  - apply _update_mapping_Some in Hr' as (rm' & -> & _ & Hrm').
    do 2 f_equal. apply map_eq. intros k. by rewrite Hrm', HK.
  - apply _update_mapping_None in Hr' as (k & yv & Hk & Hnone).
    specialize (HK k). rewrite Hk, Hnone in HK.
    destruct (HS k yv Hk). congruence.
Qed.

(** X5. Two overrides applied one after the other give what the
    configuration gives when updated once with the second override merged
    into the first: whenever the two updates in a row succeed, merging the
    overrides succeeds too and leads to the same result. *)
Theorem update_config_layers
    (config overwrite1 overwrite2 x r : gmap string value) :
  update_config config overwrite1 = Some x →
  update_config x overwrite2 = Some r →
  ∃ y, update_config overwrite1 overwrite2 = Some y
       ∧ update_config config y = Some r.
Proof.
  intros H1 H2. apply update_config_Some in H1, H2.
  destruct (_update_layers _ _ _ _ _ H1 H2) as (y & Hy & Hd).
  pose proof (_update_keeps_kind _ _ _ Hy) as Hkind.
  destruct y as [| |ym]; [done..|].
  exists ym. split; by apply update_config_Some.
Qed.

Lemma update_config_layers_witness :
  ∃ y, update_config sample_override
         {[ "resources" := VMap {[ "mem" := VStr "16g" ]} ]} = Some y
       ∧ update_config sample_config y
         = Some {[ "samples" := VStr "samples.tsv";
                   "resources" := VMap {[ "mem" := VStr "16g";
                                          "threads" := VInt 16 ]};
                   "containers" := VMap {[ "base" := VStr "docker://base" ]} ]}.
Proof.
  apply (update_config_layers sample_config sample_override
           {[ "resources" := VMap {[ "mem" := VStr "16g" ]} ]} sample_merged);
    reflexivity.
Defined.

End MergeLaws.

(** ** More on [scontrol_show] and [get_hpc] *)

Section DetectionLaws.

Lemma mem_app c s t : Py.mem c (s +:+ t) = Py.mem c s || Py.mem c t.
Proof.
  induction s as [|c' s IH]; simpl; [done|]. by rewrite IH, orb_assoc.
Qed.

(** Without a separator there is one field: the string itself. *)
Lemma split_no_separator sep s :
  Py.mem sep s = false → Py.split sep s = [s].
Proof.
  induction s as [|c s IH]; simpl; [done|]. intros Hm.
  apply orb_false_iff in Hm as [Hc Hm]. by rewrite Hc, (IH Hm).
Qed.

(** No field holds the separator. *)
Lemma split_fields_free sep s f :
  f ∈ Py.split sep s → Py.mem sep f = false.
Proof.
  revert f. induction s as [|c s IH]; simpl; intros f Hf.
  - apply list_elem_of_singleton in Hf as ->. done.
  - destruct (Ascii.eqb c sep) eqn:Hc.
    + apply elem_of_cons in Hf as [->|Hf]; [done|]. by apply IH.
    + destruct (Py.split sep s) as [|g gs] eqn:Hs.
      * apply list_elem_of_singleton in Hf as ->. simpl. by rewrite Hc.
      * apply elem_of_cons in Hf as [->|Hf].
        -- simpl. rewrite Hc. apply IH. by left.
        -- apply IH. by right.
Qed.

(** A character that a string does not hold is in none of its fields. *)
Lemma split_fields_mem c sep s f :
  Py.mem c s = false → f ∈ Py.split sep s → Py.mem c f = false.
Proof.
  revert f. induction s as [|c' s IH]; simpl; intros f Hm Hf.
  - apply list_elem_of_singleton in Hf as ->. done.
  - apply orb_false_iff in Hm as [Hc Hm].
    destruct (Ascii.eqb c' sep).
    + apply elem_of_cons in Hf as [->|Hf]; [done|]. by apply IH.
    + destruct (Py.split sep s) as [|g gs] eqn:Hs.
      * apply list_elem_of_singleton in Hf as ->. simpl. by rewrite Hc.
      * apply elem_of_cons in Hf as [->|Hf].
        -- simpl. rewrite Hc. apply IH; [done|]. by left.
        -- apply IH; [done|]. by right.
Qed.

Lemma lstrip_mem c s : Py.mem c (Py.lstrip s) = true → Py.mem c s = true.
Proof.
  induction s as [|c' s IH]; simpl; [done|].
  destruct (Py.isspace c'); [|done]. intros H. rewrite (IH H).
  apply orb_true_r.
Qed.

Lemma rstrip_mem c s : Py.mem c (Py.rstrip s) = true → Py.mem c s = true.
Proof.
  induction s as [|c' s IH]; simpl; [done|].
  destruct (Py.rstrip s) as [|c2 r] eqn:Hr.
  - destruct (Py.isspace c'); [done|]. simpl. rewrite orb_false_r.
    intros ->. done.
  - simpl. intros H. apply orb_true_iff in H as [->|H]; [done|].
    rewrite IH; [apply orb_true_r|]. done.
Qed.

Lemma strip_mem c s : Py.mem c s = false → Py.mem c (Py.strip s) = false.
Proof.
  intros Hs. destruct (Py.mem c (Py.strip s)) eqn:H; [|done].
  apply rstrip_mem, lstrip_mem in H. congruence.
Qed.

Lemma lstrip_idem s : Py.lstrip (Py.lstrip s) = Py.lstrip s.
Proof.
  induction s as [|c s IH]; simpl; [done|].
  destruct (Py.isspace c) eqn:Hc; [done|]. simpl. by rewrite Hc.
Qed.

Lemma rstrip_idem s : Py.rstrip (Py.rstrip s) = Py.rstrip s.
Proof.
  induction s as [|c s IH]; simpl; [done|].
  destruct (Py.rstrip s) as [|c2 r] eqn:Hr.
  - destruct (Py.isspace c) eqn:Hc; simpl; [done|]. by rewrite Hc.
  - change (Py.rstrip (String c (String c2 r))) with
      (match Py.rstrip (String c2 r) with
       | EmptyString =>
           if Py.isspace c then EmptyString else String c EmptyString
       | r' => String c r'
       end).
    by rewrite IH.
Qed.

Lemma lstrip_rstrip s :
  Py.lstrip s = s → Py.lstrip (Py.rstrip s) = Py.rstrip s.
Proof.
  destruct s as [|c s]; simpl; [done|].
  destruct (Py.isspace c) eqn:Hc.
  - intros H. exfalso.
    assert (Hlen : ∀ t, (String.length (Py.lstrip t) ≤ String.length t)%nat).
    { clear. induction t as [|c' t IH]; simpl; [lia|].
      destruct (Py.isspace c'); simpl; lia. }
    pose proof (Hlen s) as Hl. rewrite H in Hl. simpl in Hl. lia.
  - intros _. destruct (Py.rstrip s); simpl; by rewrite Hc.
Qed.

(** Stripping twice is stripping once. *)
Lemma strip_idem s : Py.strip (Py.strip s) = Py.strip s.
Proof.
  unfold Py.strip.
  rewrite (lstrip_rstrip (Py.lstrip s)) by apply lstrip_idem.
  apply rstrip_idem.
Qed.

Lemma line_key_None_line d line :
  line_key line = None → scontrol_line d line = d.
Proof. unfold line_key, scontrol_line. simpl. by case_decide. Qed.

Lemma scontrol_lines_ignored lines d :
  (∀ l, l ∈ lines → line_key l = None) → foldl scontrol_line d lines = d.
Proof.
  revert d. induction lines as [|l lines IH]; simpl; intros d H; [done|].
  rewrite line_key_None_line by (apply H; by left).
  apply IH. intros l' Hl'. apply H. by right.
Qed.

Lemma line_key_no_separator line :
  Py.mem "=" line = false → line_key line = None.
Proof.
  intros H. unfold line_key. simpl. by rewrite split_no_separator.
Qed.

(** X6. When the query prints no ['='] at all (nothing, or only lines
    without a separator), no fact is stored and no cluster is detected;
    the query itself is still run. *)
Theorem get_hpc_without_separator (w : world) :
  Py.mem "=" (w_stdout_of w "scontrol show config") = false →
  scontrol_show w = (Ok ∅, queried w) ∧ get_hpc w = (Ok None, queried w).
Proof.
  intros Hm.
  assert (Hp : scontrol_parse (w_stdout_of w "scontrol show config") = ∅).
  { unfold scontrol_parse. case_decide; [|done].
    apply scontrol_lines_ignored. intros l Hl.
    apply line_key_no_separator. by apply (split_fields_mem _ _ _ _ Hm Hl). }
  split.
  - unfold scontrol_show, mbind, M_bind, subprocess_run_capture. simpl.
    by rewrite Hp.
  - rewrite get_hpc_run. unfold detected. by rewrite Hp.
Qed.

Lemma get_hpc_without_separator_witness :
  scontrol_show laptop = (Ok ∅, queried laptop)
  ∧ get_hpc laptop = (Ok None, queried laptop).
Proof. apply (get_hpc_without_separator laptop). reflexivity. Defined.

Lemma nth_elem_of (l : list string) (i : nat) :
  (i < length l)%nat → nth i l EmptyString ∈ l.
Proof.
  revert i. induction l as [|x l IH]; simpl; intros i Hi; [lia|].
  destruct i as [|i]; [by left|]. right. apply IH. lia.
Qed.

Lemma scontrol_lines_provenance lines d k v :
  foldl scontrol_line d lines !! k = Some v →
  d !! k = Some v
  ∨ ∃ line, line ∈ lines
      ∧ (1 < length (Py.split "=" line))%nat
      ∧ k = Py.strip (nth 0 (Py.split "=" line) EmptyString)
      ∧ v = Py.strip (nth 1 (Py.split "=" line) EmptyString).
Proof.
  revert d. induction lines as [|l lines IH]; simpl; intros d H; [by left|].
  destruct (IH _ H) as [Hd|(line & Hin & Hrest)].
  - unfold scontrol_line in Hd. simpl in Hd. case_decide as Hlen.
    + rewrite lookup_insert in Hd. case_decide as Hk.
      * injection Hd as <-. right. exists l. split; [by left|]. done.
      * by left.
    + by left.
  - right. exists line. split; [by right|done].
Qed.

(** X7. Every fact in the mapping comes from a line of the output with a
    separator: its key is the trimmed first field of the line and its value
    the trimmed second field. So keys and values have no white space at
    either end and hold neither ['='] nor a line feed. *)
Theorem scontrol_facts_trimmed (out k v : string) :
  scontrol_parse out !! k = Some v →
  (∃ line, line ∈ Py.split Py.LF out
     ∧ (1 < length (Py.split "=" line))%nat
     ∧ k = Py.strip (nth 0 (Py.split "=" line) EmptyString)
     ∧ v = Py.strip (nth 1 (Py.split "=" line) EmptyString))
  ∧ Py.strip k = k ∧ Py.strip v = v
  ∧ Py.mem "=" k = false ∧ Py.mem "=" v = false
  ∧ Py.mem Py.LF k = false ∧ Py.mem Py.LF v = false.
Proof.
  unfold scontrol_parse. case_decide as Hout; [|by rewrite lookup_empty].
  intros Hkv.
  apply scontrol_lines_provenance in Hkv
    as [Hkv|(line & Hin & Hlen & -> & ->)];
    [by rewrite lookup_empty in Hkv|].
  assert (H0 : nth 0 (Py.split "=" line) EmptyString ∈ Py.split "=" line)
    by (apply nth_elem_of; lia).
  assert (H1 : nth 1 (Py.split "=" line) EmptyString ∈ Py.split "=" line)
    by (apply nth_elem_of; lia).
  pose proof (split_fields_free _ _ _ Hin) as Hlf.
  split; [by exists line|].
  split; [apply strip_idem|]. split; [apply strip_idem|].
  split; [by apply strip_mem, (split_fields_free _ _ _ H0)|].
  split; [by apply strip_mem, (split_fields_free _ _ _ H1)|].
  split; apply strip_mem.
  - by apply (split_fields_mem _ _ _ _ Hlf H0).
  - by apply (split_fields_mem _ _ _ _ Hlf H1).
Qed.

Lemma scontrol_facts_trimmed_witness :
  (∃ line, line ∈ Py.split Py.LF biowulf_out
     ∧ (1 < length (Py.split "=" line))%nat
     ∧ "ClusterName" = Py.strip (nth 0 (Py.split "=" line) EmptyString)
     ∧ "biowulf" = Py.strip (nth 1 (Py.split "=" line) EmptyString))
  ∧ Py.strip "ClusterName" = "ClusterName" ∧ Py.strip "biowulf" = "biowulf"
  ∧ Py.mem "=" "ClusterName" = false ∧ Py.mem "=" "biowulf" = false
  ∧ Py.mem Py.LF "ClusterName" = false ∧ Py.mem Py.LF "biowulf" = false.
Proof.
  apply (scontrol_facts_trimmed biowulf_out "ClusterName" "biowulf").
  reflexivity.
Defined.

(** Joining lines and splitting again gives the lines back. *)
Lemma split_join_lines (ls : list string) :
  ls ≠ [] → Forall (λ l, Py.mem Py.LF l = false) ls →
  Py.split Py.LF (Py.join Py.LF_str ls) = ls.
Proof.
  induction ls as [|x ls IH]; [done|]. intros _ Hall.
  apply Forall_cons in Hall as [Hx Hls].
  destruct ls as [|y ls].
  - by apply split_no_separator.
  - change (Py.join Py.LF_str (x :: y :: ls))
      with (x +:+ String Py.LF (Py.join Py.LF_str (y :: ls))).
    rewrite split_field by done. f_equal. by apply IH.
Qed.

Lemma scontrol_line_fact d kv :
  Py.mem "=" kv.1 = false → Py.mem "=" kv.2 = false →
  scontrol_line d (fact_line kv) = store_fact d kv.
Proof.
  intros H1 H2. unfold scontrol_line, fact_line, store_fact. simpl.
  change (kv.1 +:+ "=" +:+ kv.2) with (kv.1 +:+ String "=" kv.2).
  by rewrite split_field, (split_no_separator _ kv.2).
Qed.

(** X8. Round trip: an output made of lines [key=value], whose keys and
    values hold no ['='] and no line feed, is parsed into exactly these
    facts, trimmed, a later line replacing an earlier one with the same
    key. *)
Theorem scontrol_parse_fact_lines (kvs : list (string * string)) :
  Forall (λ kv, Py.mem "=" kv.1 = false ∧ Py.mem "=" kv.2 = false
                ∧ Py.mem Py.LF kv.1 = false ∧ Py.mem Py.LF kv.2 = false) kvs →
  scontrol_parse (Py.join Py.LF_str (fact_line <$> kvs))
  = foldl store_fact ∅ kvs.
Proof.
  intros Hall. destruct (decide (kvs = [])) as [->|Hne]; [done|].
  assert (Hlines : Py.split Py.LF (Py.join Py.LF_str (fact_line <$> kvs))
                   = fact_line <$> kvs).
  { apply split_join_lines.
    - by destruct kvs.
    - apply Forall_fmap. eapply Forall_impl; [exact Hall|].
      intros kv (_ & _ & H1 & H2). unfold fact_line. simpl.
      by rewrite !mem_app, H1, H2. }
  unfold scontrol_parse. case_decide as Hlen.
  - rewrite Hlines. clear Hlines Hlen Hne. generalize (∅ : gmap string string).
    induction Hall as [|kv kvs (H1 & H2 & _) _ IH]; intros d; [done|].
    simpl. rewrite scontrol_line_fact by done. apply IH.
  - destruct (Py.join Py.LF_str (fact_line <$> kvs)) eqn:Hj; simpl in Hlen;
      [|lia].
    destruct kvs as [|[k v] kvs]; [done|]. simpl in Hlines.
    injection Hlines as Hk _. unfold fact_line in Hk. simpl in Hk.
    by destruct k.
Qed.

Lemma scontrol_parse_fact_lines_witness :
  scontrol_parse
    (Py.join Py.LF_str
       (fact_line <$> [("ClusterName ", " helix"); ("ClusterName", "biowulf ")]))
  = foldl store_fact ∅ [("ClusterName ", " helix"); ("ClusterName", "biowulf ")].
Proof.
  apply (scontrol_parse_fact_lines
           [("ClusterName ", " helix"); ("ClusterName", "biowulf ")]).
  repeat constructor.
Defined.

End DetectionLaws.

(** ** More on [run_snakemake] *)

Section LauncherLaws.

(** X9. Whatever its arguments and whatever the machine, [run_snakemake]
    raises, and all it has done by then is the detection query: no file is
    written, nothing is echoed, no other command is run. The error is the
    one for a missing cluster exactly in mode [slurm] without a detected
    cluster. *)
Theorem run_snakemake_always_raises (a : args) (w : world) :
  is_raise (run_snakemake a w).1 = true
  ∧ (run_snakemake a w).2 = queried w
  ∧ ((run_snakemake a w).1
     = Raise (ValueError "mode is 'slurm' but no HPC environment was detected")
     ↔ mode a = "slurm" ∧ truthy (detected w) = false).
Proof.
  rewrite run_snakemake_run. split; [done|]. split; [done|]. simpl.
  destruct (String.eqb_spec (mode a) "slurm") as [Hm|Hm];
    destruct (truthy (detected w)); simpl; split; try done;
    intros [? ?]; done.
Qed.

Lemma hpc_options_entries h e :
  hpc_options !! h = Some e →
  hpc_slurm e = "assets/slurm_header_biowulf.sh"
  ∨ hpc_slurm e = "assets/slurm_header_frce.sh".
Proof.
  unfold hpc_options. intros H.
  apply lookup_insert_Some in H as [[_ <-]|[_ H]]; [by left|].
  apply lookup_singleton_Some in H as [_ <-]. by right.
Qed.

Lemma append_length s t :
  String.length (s +:+ t) = (String.length s + String.length t)%nat.
Proof.
  induction s as [|c s IH]; [done|].
  change (S (String.length (s +:+ t))
          = S (String.length s + String.length t)).
  by rewrite IH.
Qed.

(** The three outcomes of [os.path.join]. *)
Lemma path_join_cases a b :
  Py.path_join a b = b
  ∨ Py.path_join a b = a +:+ b
  ∨ Py.path_join a b = a +:+ "/" +:+ b.
Proof.
  unfold Py.path_join.
  destruct b as [|[[] [] [] [] [] [] [] []] b], a as [|c a]; auto;
    destruct (Py.endswith "/" (String c a)); auto.
Qed.

Lemma path_join_length a b :
  (String.length b ≤ String.length (Py.path_join a b))%nat.
Proof.
  destruct (path_join_cases a b) as [->|[->| ->]];
    rewrite ?append_length; lia.
Qed.

Lemma template_path_not_script w h e :
  hpc_options !! h = Some e →
  Py.path_join (w_basedir w) (hpc_slurm e) ≠ "submit_slurm.sh".
Proof.
  intros He Heq.
  pose proof (path_join_length (w_basedir w) (hpc_slurm e)) as Hlen.
  rewrite Heq in Hlen.
  destruct (hpc_options_entries _ _ He) as [Hs|Hs]; rewrite Hs in Hlen;
    simpl in Hlen; lia.
Qed.


(** X10. The choice of the command to run never runs a subprocess itself,
    and the only file it can touch is [submit_slurm.sh]; in a mode other
    than [slurm] it changes nothing at all. *)
Theorem select_run_command_frame (a : args) (hpc : option string)
    (cmd : string) (w : world) :
  w_procs (select_run_command a hpc cmd w).2 = w_procs w
  ∧ (∀ p, p ≠ "submit_slurm.sh" →
          w_fs (select_run_command a hpc cmd w).2 !! p = w_fs w !! p)
  ∧ (mode a ≠ "slurm" → (select_run_command a hpc cmd w).2 = w).
Proof.
  unfold select_run_command.
  destruct (String.eqb_spec (mode a) "slurm") as [Hm|Hm].
  - destruct (hpc ≫= (hpc_options !!.)) as [e|];
      unfold mbind, M_bind, mret, M_ret, raise, open_write, snake_base,
        open_read; simpl.
    + destruct (_ !! Py.path_join _ _); simpl.
      * split; [done|]. split; [|done]. intros p Hp.
        by rewrite !lookup_alter_ne, lookup_insert_ne.
      * split; [done|]. split; [|done]. intros p Hp.
        by rewrite lookup_insert_ne.
    + split; [done|]. split; [|done]. intros p Hp.
      by rewrite lookup_insert_ne.
  - destruct (String.eqb (mode a) "local"); [|done].
    by destruct (truthy hpc), w.
Qed.



(** X12. In mode [slurm] on a registered cluster whose header template is
    missing, the choice of the command raises [FileNotFoundError] for the
    template, and [submit_slurm.sh] is left empty: what it held before is
    lost. *)
Theorem select_run_command_missing_template (a : args) (h : string)
    (e : hpc_entry) (cmd : string) (w : world) :
  mode a = "slurm" →
  hpc_options !! h = Some e →
  w_fs w !! Py.path_join (w_basedir w) (hpc_slurm e) = None →
  select_run_command a (Some h) cmd w
  = (Raise (FileNotFoundError (Py.path_join (w_basedir w) (hpc_slurm e))),
     set_fs (insert "submit_slurm.sh" EmptyString) w).
Proof.
  intros Hm He Ht.
  pose proof (template_path_not_script w h e He) as Hne.
  unfold select_run_command. rewrite Hm. simpl.
  change (Some h ≫= (hpc_options !!.)) with (hpc_options !! h).
  rewrite He.
  unfold mbind, M_bind, mret, M_ret, raise, open_write, snake_base,
    open_read. simpl.
  rewrite lookup_insert_ne by done. by rewrite Ht.
Qed.

Lemma select_run_command_missing_template_witness :
  select_run_command slurm_args (Some "fnlcr") "snakemake -s x"
    (set_fs (insert "submit_slurm.sh" "old script") biowulf_node)
  = (Raise (FileNotFoundError "/opt/tool_name/assets/slurm_header_frce.sh"),
     set_fs (insert "submit_slurm.sh" EmptyString)
       (set_fs (insert "submit_slurm.sh" "old script") biowulf_node)).
Proof.
  apply (select_run_command_missing_template slurm_args "fnlcr"
           (HpcEntry "frce" "assets/slurm_header_frce.sh")); reflexivity.
Defined.

Lemma join_cons sep x y l :
  Py.join sep (x :: y :: l) = x +:+ sep +:+ Py.join sep (y :: l).
Proof. done. Qed.

Lemma append_assoc s t u : (s +:+ t) +:+ u = s +:+ t +:+ u.
Proof.
  induction s as [|c s IH]; [done|].
  change (String c ((s +:+ t) +:+ u) = String c (s +:+ t +:+ u)).
  by rewrite IH.
Qed.

Lemma join_app sep l1 l2 :
  l1 ≠ [] → l2 ≠ [] →
  Py.join sep (l1 ++ l2) = Py.join sep l1 +:+ sep +:+ Py.join sep l2.
Proof.
  intros H1 H2. induction l1 as [|x l1 IH]; [done|].
  destruct l1 as [|y l1].
  - destruct l2; [done|]. done.
  - change ((x :: y :: l1) ++ l2) with (x :: y :: (l1 ++ l2)).
    rewrite !join_cons.
    change (y :: l1 ++ l2) with ((y :: l1) ++ l2).
    rewrite IH by done. by rewrite !append_assoc.
Qed.

(** X13. The command is serialized without quoting: a token that holds a
    space gives the same command string as the two tokens on either side
    of the space, so the shell that runs the string cannot tell them
    apart. *)
Theorem serialize_splits_at_space (before after : list token) (x y : string) :
  Py.join " " (str <$> before ++ [TStr (x +:+ " " +:+ y)] ++ after)
  = Py.join " " (str <$> before ++ [TStr x; TStr y] ++ after).
Proof.
  rewrite !fmap_app. simpl.
  assert (Hmid : ∀ l, Py.join " " ((x +:+ " " +:+ y) :: l)
                      = Py.join " " (x :: y :: l)).
  { intros [|z l]; simpl; [done|]. by rewrite !append_assoc. }
  destruct (str <$> before) as [|b bs] eqn:Hb; [apply Hmid|].
  rewrite <- Hb.
  rewrite (join_app _ (str <$> before)) by (by rewrite ?Hb).
  rewrite (join_app _ (str <$> before) (x :: _)) by (by rewrite ?Hb).
  by rewrite Hmid.
Qed.

End LauncherLaws.

(** ** The helpers that read and copy files *)

Section FileLaws.

(** Running a sequence: the first part, then the rest unless it raised. *)
Lemma bind_run {A B} (m : M A) (f : A → M B) (w : world) :
  (m ≫= f) w = match m w with
               | (Ok x, w') => f x w'
               | (Raise e, w') => (Raise e, w')
               end.
Proof. done. Qed.

(** X14. [copy_config] stops at the first path whose source in the package
    is neither a file nor a directory: it raises [FileNotFoundError] naming
    source and destination, no file has changed, and the paths after it are
    not looked at. *)
Theorem copy_config_missing_source (local_config : string)
    (rest : list string) (overwrite : bool) (w : world) :
  (os_path_isfile (Py.path_join (w_basedir w) local_config) w).1 = Ok false →
  (os_path_isdir (Py.path_join (w_basedir w) local_config) w).1 = Ok false →
  copy_config (local_config :: rest) overwrite w
  = (Raise (FileNotFoundError
              ("Cannot copy " +:+ Py.path_join (w_basedir w) local_config
               +:+ " to " +:+ local_config)),
     log_stderr "Copying default config files to current working directory" w).
Proof.
  intros Hf Hd.
  unfold os_path_isfile in Hf. unfold os_path_isdir in Hd. simpl in Hf, Hd.
  injection Hf as Hf. injection Hd as Hd.
  unfold copy_config, msg, echo_err, snake_base, os_path_isfile,
    os_path_isdir.
  repeat (rewrite bind_run; simpl). rewrite Hf.
  repeat (rewrite bind_run; simpl). by rewrite Hd.
Qed.

Lemma copy_config_missing_source_witness :
  copy_config ["nextflow.config"; "config/"] true laptop
  = (Raise (FileNotFoundError
              ("Cannot copy " +:+ Py.path_join (w_basedir laptop) "nextflow.config"
               +:+ " to " +:+ "nextflow.config")),
     log_stderr "Copying default config files to current working directory"
       laptop).
Proof.
  apply (copy_config_missing_source "nextflow.config" ["config/"] true laptop);
    reflexivity.
Defined.

(** X15. A file name in the working directory whose source in the package
    is a regular file (another file than the destination, which is no
    directory) is copied over whatever the destination held, with
    [overwrite] true or false alike: the flag protects no file. No other
    file changes. *)
Theorem copy_config_file_overwrites (local_config content : string)
    (overwrite : bool) (w : world) :
  w_fs w !! Py.path_join (w_basedir w) local_config = Some content →
  Py.path_join (w_basedir w) local_config ≠ local_config →
  Py.mem "/" local_config = false →
  (os_path_isdir local_config w).1 = Ok false →
  (copy_config [local_config] overwrite w).1 = Ok ()
  ∧ w_fs (copy_config [local_config] overwrite w).2
    = <[local_config := content]> (w_fs w).
Proof.
  intros Hc Hne _ _.
  unfold copy_config, msg, echo_err, snake_base, os_path_isfile,
    shutil_copyfile, open_read, open_write, file_write.
  repeat (rewrite bind_run; simpl).
  rewrite bool_decide_eq_true_2 by by eexists.
  repeat (rewrite bind_run; simpl). rewrite Hc.
  repeat (rewrite bind_run; simpl). split; [done|].
  apply map_eq. intros q. destruct (decide (local_config = q)) as [->|Hq].
  - by rewrite lookup_alter_eq, !lookup_insert_eq.
  - by rewrite lookup_alter_ne, !lookup_insert_ne.
Qed.

Lemma copy_config_file_overwrites_witness :
  (copy_config ["config.yaml"] false
     (set_fs (λ _, {[ "/opt/tool_name/config.yaml" := "default";
                      "config.yaml" := "edited" ]}) laptop)).1 = Ok ()
  ∧ w_fs (copy_config ["config.yaml"] false
            (set_fs (λ _, {[ "/opt/tool_name/config.yaml" := "default";
                             "config.yaml" := "edited" ]}) laptop)).2
    = <["config.yaml" := "default"]>
        (w_fs (set_fs (λ _, {[ "/opt/tool_name/config.yaml" := "default";
                               "config.yaml" := "edited" ]}) laptop)).
Proof.
  apply (copy_config_file_overwrites "config.yaml" "default" false
           (set_fs (λ _, {[ "/opt/tool_name/config.yaml" := "default";
                            "config.yaml" := "edited" ]}) laptop)).
  - reflexivity.
  - vm_compute. discriminate.
  - reflexivity.
  - reflexivity.
Defined.









End FileLaws.
